(** * A shallow embedding of [corenlp/client.py]

    The client supervises an external CoreNLP server ([RobustService]) and
    talks to it over HTTP ([CoreNLPClient]).  Everything the Python code
    asks of the outside world (HTTP calls, the wall clock, child processes)
    is answered by an oracle, the [World]; what the code does to the outside
    world is appended to a [trace].  Python objects that are shared by
    reference (the default property mapping) live in a [heap]. *)

From Stdlib Require Import String Ascii ZArith QArith Lqa Lia Bool List.
From Stdlib Require Import DecimalString.
From stdpp Require Import base option list gmap.
Import ListNotations.

Local Open Scope string_scope.
Local Open Scope Z_scope.

(** ** Python values *)

(** The values that occur in property mappings, query parameters and parsed
    JSON.  A [PDict] keeps its items in insertion order, as Python does. *)
#[warnings="-register-all"]
Inductive pyval : Type :=
| PNone
| PBool (b : bool)
| PInt (n : Z)
| PStr (s : string)
| PList (l : list pyval)
| PDict (d : list (string * pyval)).

Definition dict : Type := list (string * pyval).

(** [d.get(k)] *)
Fixpoint dict_get (d : dict) (k : string) : option pyval :=
  match d with
  | [] => None
  | (k', v) :: d' => if String.eqb k' k then Some v else dict_get d' k
  end.

(** [d[k] = v]: an existing key keeps its place, a new key goes last. *)
Fixpoint dict_set (d : dict) (k : string) (v : pyval) : dict :=
  match d with
  | [] => [(k, v)]
  | (k', v') :: d' =>
      if String.eqb k' k then (k', v) :: d' else (k', v') :: dict_set d' k v
  end.

(** [d.update(other)] *)
Definition dict_update (d other : dict) : dict :=
  fold_left (fun acc kv => dict_set acc (fst kv) (snd kv)) other d.

(** [sep.join(parts)] *)
Fixpoint join (sep : string) (parts : list string) : string :=
  match parts with
  | [] => ""
  | [p] => p
  | p :: rest => p ++ sep ++ join sep rest
  end.

(** ** Exceptions and results *)

Inductive exn : Type :=
| ShouldRetryException
| PermanentlyFailedException (msg : string)
| AnnotationException (msg : string)
| TimeoutException (msg : string)
| ValueError (msg : string)
| TypeError
| HTTPError
| ConnectionError
| RequestException
| CalledProcessError (returncode : Z).

Inductive result (A : Type) : Type :=
| Ok (a : A)
| Raise (e : exn).
Arguments Ok {A} a.
Arguments Raise {A} e.

(** ** The [requests] library, as far as the client uses it *)

Module requests.

Record Response : Type := mkResponse {
  status_code : Z;
  text : string;      (* the body, decoded *)
  content : string    (* the body, raw bytes *)
}.

(** [Response.raise_for_status()]: [HTTPError] for a 4xx or 5xx status. *)
Definition raise_for_status (r : Response) : result unit :=
  if (400 <=? status_code r) && (status_code r <? 600)
  then Raise HTTPError
  else Ok tt.

(** [Response.ok]: whether [raise_for_status] would pass. *)
Definition ok (r : Response) : bool :=
  match raise_for_status r with
  | Ok _ => true
  | Raise _ => false
  end.

End requests.
Import requests.

(** ** The outside world *)

(** How the network answers one HTTP call. *)
Inductive reply : Type :=
| Answered (r : Response)
| Refused          (* no connection: requests raises ConnectionError *)
| Broken.          (* requests raises some other RequestException *)

(** The oracle: the answer to the n-th HTTP call, the value of the n-th
    [time.time()] reading (seconds, as a rational), and the exit status of
    the n-th command run to completion. *)
Record World : Type := mkWorld {
  net : nat -> reply;
  wall : nat -> Q;
  exit_status : nat -> Z
}.

(** What the code does to the outside world.  A [POST] carries the single
    query parameter [properties], the rendering [str(properties)] of the
    mapping kept here. *)
Inductive event : Type :=
| GET (url : string) (params : dict) (data : option string)
| POST (url : string) (properties : dict) (data : string) (content_type : string)
| Sleep (seconds : Z)
| Popen (argv : list string)
| Kill (pid : nat)
| Run (argv : list string).

Definition loc : Type := nat.

(** The interpreter's side of the world: how many oracle answers have been
    consumed, the events so far (oldest first) and the shared objects. *)
Record Machine : Type := mkMachine {
  sent : nat;
  ticks : nat;
  ran : nat;
  spawned : nat;
  trace : list event;
  heap : gmap loc dict
}.

Definition log (e : event) (m : Machine) : Machine :=
  mkMachine (sent m) (ticks m) (ran m) (spawned m) (trace m ++ [e]) (heap m).

(** The object a reference points to. *)
Definition deref (m : Machine) (l : loc) : dict :=
  match heap m !! l with
  | Some d => d
  | None => []
  end.

Definition store (l : loc) (d : dict) (m : Machine) : Machine :=
  mkMachine (sent m) (ticks m) (ran m) (spawned m) (trace m) (<[l := d]> (heap m)).

(** ** Computations

    A method body reads the world, updates [self] and the machine, and
    returns a value or raises; [None] means that the fuel of a loop ran out
    or that the run left what is modelled. *)
Definition M (Self A : Type) : Type :=
  World -> Self -> Machine -> option (result A * Self * Machine).

Definition ret {Self A} (a : A) : M Self A :=
  fun _ self m => Some (Ok a, self, m).

Definition raise {Self A} (e : exn) : M Self A :=
  fun _ self m => Some (Raise e, self, m).

Definition bind {Self A B} (c : M Self A) (k : A -> M Self B) : M Self B :=
  fun w self m =>
    match c w self m with
    | None => None
    | Some (Ok a, self', m') => k a w self' m'
    | Some (Raise e, self', m') => Some (Raise e, self', m')
    end.

(** [try: c  except <the exceptions h maps to a handler>: h e] *)
Definition try_except {Self A} (c : M Self A) (h : exn -> option (M Self A))
  : M Self A :=
  fun w self m =>
    match c w self m with
    | Some (Raise e, self', m') =>
        match h e with
        | Some k => k w self' m'
        | None => Some (Raise e, self', m')
        end
    | other => other
    end.

Definition out_of_fuel {Self A} : M Self A := fun _ _ _ => None.

Definition get_self {Self} : M Self Self :=
  fun _ self m => Some (Ok self, self, m).

Definition set_self {Self} (self' : Self) : M Self unit :=
  fun _ _ m => Some (Ok tt, self', m).

Declare Scope py_scope.
Delimit Scope py_scope with py.
Notation "x <- c ;; k" := (bind c (fun x => k))
  (at level 100, c at next level, right associativity) : py_scope.
Notation "c ;; k" := (bind c (fun _ => k))
  (at level 100, right associativity) : py_scope.
Local Open Scope py_scope.

(** *** Library calls *)

(** One HTTP call: the event is logged and the oracle's next answer is used. *)
Definition http {Self} (e : event) : M Self Response :=
  fun w self m =>
    let m' := mkMachine (S (sent m)) (ticks m) (ran m) (spawned m)
                        (trace m ++ [e]) (heap m) in
    match net w (sent m) with
    | Answered r => Some (Ok r, self, m')
    | Refused => Some (Raise ConnectionError, self, m')
    | Broken => Some (Raise RequestException, self, m')
    end.

Definition requests_get {Self} (url : string) (params : dict)
    (data : option string) : M Self Response :=
  http (GET url params data).

Definition requests_post {Self} (url : string) (properties : dict)
    (data : string) (content_type : string) : M Self Response :=
  http (POST url properties data content_type).

(** [time.time()] *)
Definition time_time {Self} : M Self Q :=
  fun w self m =>
    Some (Ok (wall w (ticks m)), self,
          mkMachine (sent m) (S (ticks m)) (ran m) (spawned m) (trace m) (heap m)).

(** [time.sleep(seconds)] *)
Definition time_sleep {Self} (seconds : Z) : M Self unit :=
  fun _ self m => Some (Ok tt, self, log (Sleep seconds) m).

(** [subprocess.Popen(argv)]: the handle of the new child. *)
Definition subprocess_Popen {Self} (argv : list string) : M Self nat :=
  fun _ self m =>
    Some (Ok (spawned m), self,
          mkMachine (sent m) (ticks m) (ran m) (S (spawned m))
                    (trace m ++ [Popen argv]) (heap m)).

(** [handle.kill()] *)
Definition Popen_kill {Self} (pid : nat) : M Self unit :=
  fun _ self m => Some (Ok tt, self, log (Kill pid) m).

(** [subprocess.run(argv, check=True)] *)
Definition subprocess_run_check {Self} (argv : list string) : M Self unit :=
  fun w self m =>
    let m' := mkMachine (sent m) (ticks m) (S (ran m)) (spawned m)
                        (trace m ++ [Run argv]) (heap m) in
    let rc := exit_status w (ran m) in
    if rc =? 0 then Some (Ok tt, self, m')
    else Some (Raise (CalledProcessError rc), self, m').

(** ** [RobustService] *)

Record RobustService : Type := mkService {
  start_cmd : option (list string);
  stop_cmd : option (list string);
  endpoint : string;
  server : option nat;
  is_active : bool
}.

Definition TIMEOUT : Q := 15 # 1.

(** The argument list of a command that is configured: [None] and the empty
    list are both false for Python's [if]. *)
Definition configured (cmd : option (list string)) : option (list string) :=
  match cmd with
  | Some (arg :: args) => Some (arg :: args)
  | _ => None
  end.

Definition set_server (p : option nat) : M RobustService unit :=
  self <- get_self ;;
  set_self (mkService (start_cmd self) (stop_cmd self) (endpoint self) p
                      (is_active self)).

Definition set_is_active (b : bool) : M RobustService unit :=
  self <- get_self ;;
  set_self (mkService (start_cmd self) (stop_cmd self) (endpoint self)
                      (server self) b).

Definition is_alive : M RobustService bool :=
  self <- get_self ;;
  try_except
    (r <- requests_get (endpoint self ++ "/ping") [] None ;;
     ret (ok r))
    (fun e => match e with
              | ConnectionError => Some (raise ShouldRetryException)
              | _ => None
              end).

Definition start : M RobustService unit :=
  self <- get_self ;;
  match configured (start_cmd self) with
  | Some argv => p <- subprocess_Popen argv ;; set_server (Some p)
  | None => ret tt
  end.

Definition stop : M RobustService unit :=
  self <- get_self ;;
  match server self with
  | Some p => Popen_kill p
  | None => ret tt
  end ;;
  match configured (stop_cmd self) with
  | Some argv => subprocess_run_check argv
  | None => ret tt
  end ;;
  set_is_active false.

Definition Qltb (x y : Q) : bool := negb (Qle_bool y x).

(** The [while True] loop of [ensure_alive]; each iteration costs one unit
    of fuel. *)
Fixpoint wait_loop (fuel : nat) (start_time : Q) : M RobustService unit :=
  match fuel with
  | O => out_of_fuel
  | S fuel' =>
      alive <- try_except is_alive
                 (fun e => match e with
                           | ShouldRetryException => Some (ret false)
                           | _ => None
                           end) ;;
      if (alive : bool) then ret tt
      else
        now <- time_time ;;
        if Qltb (now - start_time) TIMEOUT
        then time_sleep 1 ;; wait_loop fuel' start_time
        else raise (PermanentlyFailedException
                      "Timed out waiting for service to come alive.")
  end.

(** [ensure_alive] returns the probe's answer on its first path and Python's
    [None] at its end. *)
Definition ensure_alive (fuel : nat) : M RobustService (option bool) :=
  self <- get_self ;;
  early <- (if is_active self
            then try_except (b <- is_alive ;; ret (Some b))
                   (fun e => match e with
                             | ShouldRetryException => Some (ret None)
                             | _ => None
                             end)
            else ret None) ;;
  match early with
  | Some b => ret (Some b)
  | None =>
      self <- get_self ;;
      match server self with
      | None => start
      | Some _ => ret tt
      end ;;
      start_time <- time_time ;;
      wait_loop fuel start_time ;;
      set_is_active true ;;
      ret None
  end.

(** ** [CoreNLPClient] *)

(** [corenlp_protobuf] and [json] are libraries the module imports; the
    client only passes bytes through them. *)
Class Libraries (Document : Type) : Type := {
  parseFromDelimitedString : string -> result Document;
  writeToDelimitedString : Document -> string;
  json_loads : string -> option pyval   (* [None]: json.loads raises *)
}.

(** The subclass adds two attributes; [default_properties] is a reference
    to a mapping, shared with whoever else holds that reference. *)
Record CoreNLPClient : Type := mkClient {
  base : RobustService;
  default_annotators : list string;
  default_properties : loc
}.

(** A method inherited from [RobustService], run on a client. *)
Definition super {A} (c : M RobustService A) : M CoreNLPClient A :=
  fun w self m =>
    match c w (base self) m with
    | None => None
    | Some (r, base', m') =>
        Some (r, mkClient base' (default_annotators self)
                          (default_properties self), m')
    end.

Definition lift {Self A} (r : result A) : M Self A :=
  fun _ self m => Some (r, self, m).

(** [obj.update(other)] on the object behind a reference; the computation
    returns the mapping as it is afterwards. *)
Definition update_at {Self} (l : loc) (other : dict) : M Self dict :=
  fun _ self m =>
    let d := dict_update (deref m l) other in
    Some (Ok d, self, store l d m).

Definition TIMED_OUT : string :=
  "CoreNLP request timed out. Your document may be too long.".

(** [_request].  Only [raise_for_status] raises [HTTPError], so the handler
    runs with [r] bound; what the earlier statements raise passes through
    the [except] clause untouched. *)
Definition _request (fuel : nat) (buf : string) (properties : dict)
  : M CoreNLPClient Response :=
  super (ensure_alive fuel) ;;
  self <- get_self ;;
  ctype <- match default (PStr "text") (dict_get properties "inputFormat") with
           | PStr input_format =>
               if String.eqb input_format "text"
               then ret "text/plain; charset=utf-8"
               else if String.eqb input_format "serialized"
               then ret "application/x-protobuf"
               else raise (ValueError ("Unrecognized inputFormat " ++ input_format))
           | _ => raise TypeError    (* str + a value that is no str *)
           end ;;
  r <- requests_post (endpoint (base self)) properties buf ctype ;;
  try_except
    (lift (raise_for_status r) ;; ret r)
    (fun e => match e with
              | HTTPError =>
                  Some (if String.eqb (text r) TIMED_OUT
                        then raise (TimeoutException (text r))
                        else raise (AnnotationException (text r)))
              | _ => None
              end).

(** [annotators or self.default_annotators] *)
Definition annotators_or (annotators : option (list string))
    (fallback : list string) : list string :=
  match annotators with
  | Some (a :: rest) => a :: rest
  | _ => fallback
  end.

Definition SERIALIZER : string :=
  "edu.stanford.nlp.pipeline.ProtobufAnnotationSerializer".

(** The mapping both [annotate] and [update] write into the properties. *)
Definition request_properties (annotators : list string)
    (input_format : string) : dict :=
  [ ("annotators", PStr (join "," annotators));
    ("inputFormat", PStr input_format);
    ("outputFormat", PStr "serialized");
    ("serializer", PStr SERIALIZER) ].

(** [text] is the UTF-8 encoding of the Python string. *)
Definition annotate {Document} `{Libraries Document} (fuel : nat)
    (text : string) (annotators : option (list string))
    (properties : option dict) : M CoreNLPClient Document :=
  self <- get_self ;;
  properties <- match properties with
                | None =>
                    update_at (default_properties self)
                      (request_properties
                         (annotators_or annotators (default_annotators self))
                         "text")
                | Some p => ret p
                end ;;
  r <- _request fuel text properties ;;
  lift (parseFromDelimitedString (content r)).

Definition update {Document} `{Libraries Document} (fuel : nat)
    (doc : Document) (annotators : option (list string))
    (properties : option dict) : M CoreNLPClient Document :=
  self <- get_self ;;
  properties <- match properties with
                | None =>
                    update_at (default_properties self)
                      (request_properties
                         (annotators_or annotators (default_annotators self))
                         "serialized")
                | Some p => ret p
                end ;;
  let msg := writeToDelimitedString doc in
  r <- _request fuel msg properties ;;
  lift (parseFromDelimitedString (content r)).

(** *** Pattern queries *)

(** What [__regex] returns: the body as text, or the JSON value it parses to. *)
Inductive output : Type :=
| RawText (s : string)
| Json (j : pyval).

(** The parsed result of a semgrex query, as the flattening reads it: under
    the key [sentences] a list of mappings, each from a key to a number (the
    [length] entry) or to a word record. *)
Inductive entry : Type :=
| Num (n : Z)
| Obj (d : dict).

Definition sentence : Type := list (string * entry).

Record Matches : Type := mkMatches { sentences : list sentence }.

(** [dict(v, **dict([('sent_index', i)]))]: a copy of [v] with the key set;
    a number is no mapping and cannot be copied. *)
Definition with_sent_index (v : entry) (i : nat) : result dict :=
  match v with
  | Obj d => Ok (dict_set d "sent_index" (PInt (Z.of_nat i)))
  | Num _ => Raise TypeError
  end.

(** The inner [for k, v in s.items() if ...] of the comprehension. *)
Fixpoint sentence_words (keep : nat -> bool) (i : nat) (s : sentence)
  : result (list dict) :=
  match s with
  | [] => Ok []
  | (k, v) :: s' =>
      if negb (String.eqb k "length") && keep i
      then match with_sent_index v i with
           | Raise e => Raise e
           | Ok word =>
               match sentence_words keep i s' with
               | Raise e => Raise e
               | Ok words => Ok (word :: words)
               end
           end
      else sentence_words keep i s'
  end.

(** The outer [for i, s in enumerate(...)], counting from [i]. *)
Fixpoint indexed_words (keep : nat -> bool) (i : nat) (ss : list sentence)
  : result (list dict) :=
  match ss with
  | [] => Ok []
  | s :: ss' =>
      match sentence_words keep i s with
      | Raise e => Raise e
      | Ok words =>
          match indexed_words keep (S i) ss' with
          | Raise e => Raise e
          | Ok rest => Ok (words ++ rest)%list
          end
      end
  end.

(** [if sent_index:] is false for [None] and for [0]. *)
Definition semgrex_matches_to_indexed_words (matches : Matches)
    (sent_index : option Z) : result (list dict) :=
  match sent_index with
  | Some n =>
      if negb (n =? 0)
      then indexed_words (fun i => Z.of_nat i =? n) 0 (sentences matches)
      else indexed_words (fun _ => true) 0 (sentences matches)
  | None => indexed_words (fun _ => true) 0 (sentences matches)
  end.

(** Reading a JSON value as [Matches]; [None] when it has another shape. *)
Definition as_entry (v : pyval) : option entry :=
  match v with
  | PInt n => Some (Num n)
  | PDict d => Some (Obj d)
  | _ => None
  end.

Definition as_sentence (v : pyval) : option sentence :=
  match v with
  | PDict d =>
      mapM (fun kv => match as_entry (snd kv) with
                      | Some e => Some (fst kv, e)
                      | None => None
                      end) d
  | _ => None
  end.

Definition as_matches (v : pyval) : option Matches :=
  match v with
  | PDict d =>
      match dict_get d "sentences" with
      | Some (PList l) =>
          match mapM as_sentence l with
          | Some ss => Some (mkMatches ss)
          | None => None
          end
      | _ => None
      end
  | _ => None
  end.

Definition unmodelled {Self A} : M Self A := fun _ _ _ => None.

(** [text] is the UTF-8 encoding of the Python string. *)
Definition __regex {Document} `{Libraries Document} (path text pattern : string)
    (filter unique : bool) : M CoreNLPClient output :=
  self <- get_self ;;
  r <- requests_get (endpoint (base self) ++ path)
         [ ("pattern", PStr pattern);
           ("filter", PBool filter);
           ("unique", PBool unique) ]
         (Some text) ;;
  ret (match json_loads (requests.text r) with
       | Some j => Json j
       | None => RawText (requests.text r)
       end).

(** What a query method returns: the matches as they came, or the words. *)
Inductive query_result : Type :=
| Unflattened (matches : output)
| Flattened (words : list dict).

(** The call of [semgrex_matches_to_indexed_words] on what [__regex]
    returned.  Indexing a string with ['sentences'] is a [TypeError]; a JSON
    value of another shape than [Matches] is outside the model. *)
Definition flattened {Self} (matches : output) (sent_index : option Z)
  : M Self query_result :=
  match matches with
  | RawText _ => raise TypeError
  | Json j =>
      match as_matches j with
      | Some m =>
          words <- lift (semgrex_matches_to_indexed_words m sent_index) ;;
          ret (Flattened words)
      | None => unmodelled
      end
  end.

Definition tokensregex {Document} `{Libraries Document} (text pattern : string)
    (filter flatten : bool) (sent_index : option Z)
  : M CoreNLPClient query_result :=
  matches <- __regex "/semgrex" text pattern filter false ;;
  if negb flatten then ret (Unflattened matches)
  else flattened matches sent_index.

Definition semgrex {Document} `{Libraries Document} (text pattern : string)
    (filter unique flatten : bool) (sent_index : option Z)
  : M CoreNLPClient query_result :=
  matches <- __regex "/semgrex" text pattern filter unique ;;
  if negb flatten then ret (Unflattened matches)
  else flattened matches sent_index.

Definition tregrex {Document} `{Libraries Document} (text pattern : string)
    (filter : bool) : M CoreNLPClient output :=
  __regex "/tregex" text pattern filter false.

(** ** Scoped use *)

(** [__enter__]: start, and hand back the object itself. *)
Definition __enter__ : M RobustService RobustService :=
  start ;; get_self.

(** [__exit__]: stop.  The exception details it is passed are ignored and
    Python's [None] comes back, so an exception of the block is not
    suppressed. *)
Definition __exit__ : M RobustService unit :=
  stop.

(** [with client: body], by the protocol of the language: [__exit__] runs
    when the body returns and when it raises, and since it returns [None]
    what the body raised is raised again; what [__exit__] itself raises
    takes its place. *)
Definition with_ {A} (body : M CoreNLPClient A) : M CoreNLPClient A :=
  super __enter__ ;;
  fun w self m =>
    match body w self m with
    | None => None
    | Some (Ok a, self1, m1) => (super __exit__ ;; ret a) w self1 m1
    | Some (Raise e, self1, m1) => (super __exit__ ;; raise e) w self1 m1
    end.

(** ** Construction *)

(** What the constructors take from the standard library and the
    environment: [shlex.split], [urlparse(url).netloc] and
    [os.getenv("JAVANLP_HOME")]. *)
Class Platform : Type := {
  shlex_split : string -> list string;
  netloc : string -> string;
  JAVANLP_HOME : option string
}.

(** [s.split(":")] *)
Fixpoint split_colon (s : string) : list string :=
  match s with
  | EmptyString => [""]
  | String c s' =>
      if Ascii.eqb c ":"%char then "" :: split_colon s'
      else match split_colon s' with
           | head :: rest => String c head :: rest
           | [] => [String c ""]
           end
  end.

(** [cmd and shlex.split(cmd)]: [None] stays, the empty string stays (kept
    here as the empty list, false for [if] as well), any other string is
    split. *)
Definition and_split `{Platform} (cmd : option string) : option (list string) :=
  match cmd with
  | None => None
  | Some EmptyString => Some []
  | Some cmd => Some (shlex_split cmd)
  end.

(** [RobustService.__init__] *)
Definition RobustService__init__ `{Platform} (start_cmd stop_cmd : option string)
    (endpoint : string) : RobustService :=
  mkService (and_split start_cmd) (and_split stop_cmd) endpoint None false.

(** How [CoreNLPClient.__init__] can fail. *)
Inductive init_error : Type :=
| UnpackError                      (* ValueError: host, port = <not two items> *)
| AssertionError (msg : string).

Inductive constructed : Type :=
| Built (client : CoreNLPClient)
| Failed (e : init_error).

(** The command line [CoreNLPClient.__init__] formats. *)
Definition server_command (javanlp port : string) (timeout : Z) (quiet : bool)
  : string :=
  javanlp ++ "/javanlp.sh edu.stanford.nlp.pipeline.StanfordCoreNLPServer -port "
  ++ port ++ " -timeout " ++ NilZero.string_of_int (Z.to_int timeout) ++ " "
  ++ (if quiet then "2&>1 >/dev/null" else "").

(** [CoreNLPClient.__init__]; [properties] is the reference it is passed
    (the class-level [DEFAULT_PROPERTIES] when the argument is omitted). *)
Definition CoreNLPClient__init__ `{Platform} (start_server : bool)
    (endpoint : string) (timeout : Z) (annotators : list string)
    (properties : loc) (quiet : bool) : constructed :=
  let build start_cmd :=
    Built (mkClient (RobustService__init__ start_cmd None endpoint)
                    annotators properties) in
  if start_server then
    match split_colon (netloc endpoint) with
    | [host; port] =>
        if negb (String.eqb host "localhost")
        then Failed (AssertionError
                       "If starting a server, endpoint must be localhost")
        else match JAVANLP_HOME with
             | None =>
                 Failed (AssertionError
                   "Please define $JAVANLP_HOME where your CoreNLP Java checkout is")
             | Some javanlp =>
                 build (Some (server_command javanlp port timeout quiet))
             end
    | _ => Failed UnpackError
    end
  else build None.

(** ** Vocabulary of the statements *)

(** The machine after one more HTTP call. *)
Definition after_call (e : event) (m : Machine) : Machine :=
  mkMachine (S (sent m)) (ticks m) (ran m) (spawned m) (trace m ++ [e]) (heap m).

(** The probe [is_alive] sends. *)
Definition ping (self : RobustService) : event :=
  GET (endpoint self ++ "/ping") [] None.

(** The machine after one more clock reading. *)
Definition after_tick (m : Machine) : Machine :=
  mkMachine (sent m) (S (ticks m)) (ran m) (spawned m) (trace m) (heap m).

(** What [is_alive] makes of the network's answer. *)
Definition probe (a : reply) : result bool :=
  match a with
  | Answered r => Ok (ok r)
  | Refused => Raise ShouldRetryException
  | Broken => Raise RequestException
  end.

(** The probe answers true. *)
Definition alive (a : reply) : bool :=
  match probe a with
  | Ok true => true
  | _ => false
  end.

(** The probe answers false or raises [ShouldRetryException]. *)
Definition not_yet (a : reply) : bool :=
  match probe a with
  | Ok false | Raise ShouldRetryException => true
  | _ => false
  end.

Definition set_active (b : bool) (self : RobustService) : RobustService :=
  mkService (start_cmd self) (stop_cmd self) (endpoint self) (server self) b.

(** [ensure_alive] after its first [if]: start the service if there is no
    handle, then wait for it. *)
Definition recover (fuel : nat) : M RobustService (option bool) :=
  self <- get_self ;;
  match server self with
  | None => start
  | Some _ => ret tt
  end ;;
  start_time <- time_time ;;
  wait_loop fuel start_time ;;
  set_is_active true ;;
  ret None.

(** The events of [k] failed rounds of the waiting loop. *)
Fixpoint rounds (self : RobustService) (k : nat) : list event :=
  match k with
  | O => []
  | S k' => ping self :: Sleep 1 :: rounds self k'
  end.

Definition is_POST (e : event) : bool :=
  match e with POST _ _ _ _ => true | _ => false end.

(** The content type [_request] derives from the properties, or what it
    raises instead. *)
Definition content_type_for (properties : dict) : result string :=
  match default (PStr "text") (dict_get properties "inputFormat") with
  | PStr input_format =>
      if String.eqb input_format "text"
      then Ok "text/plain; charset=utf-8"
      else if String.eqb input_format "serialized"
      then Ok "application/x-protobuf"
      else Raise (ValueError ("Unrecognized inputFormat " ++ input_format))
  | _ => Raise TypeError
  end.

(** What [_request] makes of the response to its POST. *)
Definition verdict (r : Response) : result Response :=
  if (400 <=? status_code r) && (status_code r <? 600)
  then if String.eqb (text r) TIMED_OUT
       then Raise (TimeoutException (text r))
       else Raise (AnnotationException (text r))
  else Ok r.

(** The POST events of a trace. *)
Definition posts (t : list event) : list event := List.filter is_POST t.

(** The record made of a word carries the index it was given. *)
Definition tagged (i : nat) (word : dict) : Prop :=
  dict_get word "sent_index" = Some (PInt (Z.of_nat i)).

(** The query parameters [__regex] sends. *)
Definition regex_params (pattern : string) (filter unique : bool) : dict :=
  [ ("pattern", PStr pattern); ("filter", PBool filter); ("unique", PBool unique) ].

(** The keys [annotate] and [update] write when no properties are given. *)
Definition request_keys : list string :=
  [ "annotators"; "inputFormat"; "outputFormat"; "serializer" ].

(** The command [ensure_alive] starts: the configured one, when there is no
    handle yet. *)
Definition spawn_argv (self : RobustService) : option (list string) :=
  match server self with
  | None => configured (start_cmd self)
  | Some _ => None
  end.

Definition spawn_events (self : RobustService) : list event :=
  match spawn_argv self with
  | Some argv => [Popen argv]
  | None => []
  end.

(** The service and the machine once that command has been started. *)
Definition after_spawn (self : RobustService) (m : Machine)
  : RobustService * Machine :=
  match spawn_argv self with
  | Some argv =>
      (mkService (start_cmd self) (stop_cmd self) (endpoint self)
                 (Some (spawned m)) (is_active self),
       mkMachine (sent m) (ticks m) (ran m) (S (spawned m))
                 (trace m ++ [Popen argv]) (heap m))
  | None => (self, m)
  end.

(** The configuration of a client: what no method assigns to. *)
Definition same_config (a b : CoreNLPClient) : Prop :=
  start_cmd (base a) = start_cmd (base b) /\
  stop_cmd (base a) = stop_cmd (base b) /\
  endpoint (base a) = endpoint (base b) /\
  default_annotators a = default_annotators b /\
  default_properties a = default_properties b.

(** The entries of a sentence that are words. *)
Definition word_entries (s : sentence) : list (string * entry) :=
  List.filter (fun kv => negb (String.eqb (fst kv) "length")) s.

Definition is_Num (e : entry) : bool :=
  match e with Num _ => true | Obj _ => false end.

(** How many colons a string has. *)
Fixpoint colons (s : string) : nat :=
  match s with
  | EmptyString => 0
  | String c s' => if Ascii.eqb c ":"%char then S (colons s') else colons s'
  end.

(** ** Concrete worlds and objects *)

Definition respond (status : Z) (body : string) : reply :=
  Answered (mkResponse status body body).

(** A clock that advances one second from reading to reading. *)
Definition seconds (n : nat) : Q := inject_Z (Z.of_nat n).

(** The service answers every call with 200. *)
Definition healthy : World :=
  mkWorld (fun _ => respond 200 "pong") seconds (fun _ => 0).

(** Nothing listens for the first three calls. *)
Definition slow_start : World :=
  mkWorld (fun n => if (n <? 3)%nat then Refused else respond 200 "pong")
          seconds (fun _ => 0).

(** Nothing ever listens. *)
Definition down : World :=
  mkWorld (fun _ => Refused) seconds (fun _ => 0).

(** The service is reachable and answers every call with 500. *)
Definition unhealthy : World :=
  mkWorld (fun _ => respond 500 "Internal Server Error") seconds (fun _ => 0).

(** Every call is answered with 304 and the time-out message as body. *)
Definition not_modified : World :=
  mkWorld (fun _ => respond 304 TIMED_OUT) seconds (fun _ => 0).


(** Commands exit with status 1. *)
Definition failing_commands : World :=
  mkWorld (fun _ => respond 200 "pong") seconds (fun _ => 1).

Definition boot : Machine := mkMachine 0 0 0 0 [] (<[0%nat := []]> ∅).

Definition localhost : string := "http://localhost:9000".

(** A service that is managed elsewhere and has not been contacted. *)
Definition passive : RobustService := mkService None None localhost None false.

(** A service that was started and found alive. *)
Definition running : RobustService :=
  mkService (Some ["javanlp.sh"]) None localhost (Some 0%nat) true.


(** A client on the class-level defaults: [DEFAULT_PROPERTIES] is object 0. *)
Definition client : CoreNLPClient :=
  mkClient passive ["tokenize"; "ssplit"; "lemma"; "pos"; "ner"; "depparse"] 0%nat.


(** Documents as their serialisation, and a parser that accepts no JSON. *)
#[local] Instance bytes_codec : Libraries string := {
  parseFromDelimitedString := fun bytes => Ok bytes;
  writeToDelimitedString := fun doc => doc;
  json_loads := fun _ => None
}.

(** The two-sentence query result
    [{"sentences": [{"length": 1, "0": {"word": "Alice"}},
                    {"length": 1, "0": {"word": "ran"}}]}]. *)
Definition alice_ran : Matches :=
  mkMatches [ [ ("length", Num 1); ("0", Obj [("word", PStr "Alice")]) ];
              [ ("length", Num 1); ("0", Obj [("word", PStr "ran")]) ] ].

(** A service with a start command that has not been started. *)
Definition managed : RobustService :=
  mkService (Some ["javanlp.sh"; "-port"; "9000"]) None localhost None false.

(** A machine whose shared default properties hold one setting. *)
Definition tuned : Machine :=
  mkMachine 0 0 0 0 [] (<[0%nat := [("ssplit.isOneSentence", PStr "true")]]> ∅).

(** A platform for the examples: commands are taken as a single word, the
    scheme is cut off a URL, and the Java checkout is under [/opt]. *)
#[local] Instance laptop : Platform := {
  shlex_split := fun cmd => [cmd];
  netloc := fun url => substring 7 (String.length url - 7) url;
  JAVANLP_HOME := Some "/opt/javanlp"
}.

(** The client [CoreNLPClient()] builds on that platform. *)
Definition own_server : CoreNLPClient :=
  mkClient (mkService (Some [server_command "/opt/javanlp" "9000" 5000 true])
                      None localhost None false)
           ["tokenize"] 0%nat.

(** A client later in its life: its child is running and it was found
    alive. *)
Definition started (c : CoreNLPClient) : CoreNLPClient :=
  mkClient (mkService (start_cmd (base c)) (stop_cmd (base c))
                      (endpoint (base c)) (Some 0%nat) true)
           (default_annotators c) (default_properties c).

(** * Properties *)

(** ** The monad, step by step *)

Ltac run :=
  unfold is_alive, start, stop, set_server, set_is_active, requests_get,
    requests_post, http, time_time, time_sleep, subprocess_Popen, Popen_kill,
    subprocess_run_check, update_at, lift, super, try_except, bind, ret, raise,
    get_self, set_self, out_of_fuel, unmodelled, log, store;
  cbn [fst snd].

Lemma Qltb_lt (x y : Q) : Qltb x y = true <-> (x < y)%Q.
Proof.
  unfold Qltb. rewrite negb_true_iff.
  destruct (Qle_bool y x) eqn:E.
  - apply Qle_bool_iff in E. split; [discriminate | intros L; exfalso; lra].
  - split; [intros _ | reflexivity].
    apply Qnot_le_lt. intros L. apply Qle_bool_iff in L. congruence.
Qed.

Lemma Qltb_ge (x y : Q) : Qltb x y = false <-> (y <= x)%Q.
Proof.
  destruct (Qltb x y) eqn:E.
  - apply Qltb_lt in E. split; [discriminate | intros; exfalso; lra].
  - split; [intros _ | reflexivity].
    apply Qnot_lt_le. intros L. apply Qltb_lt in L. congruence.
Qed.

Lemma is_alive_eq (w : World) (self : RobustService) (m : Machine) :
  is_alive w self m = Some (probe (net w (sent m)), self, after_call (ping self) m).
Proof.
  run. unfold probe, after_call, ping.
  destruct (net w (sent m)); reflexivity.
Qed.

(** One round of the waiting loop. *)
Lemma wait_loop_step (fuel : nat) (start_time : Q) (w : World)
    (self : RobustService) (m : Machine) :
  wait_loop (S fuel) start_time w self m =
    let m1 := after_call (ping self) m in
    let again :=
      if Qltb (wall w (ticks m) - start_time) TIMEOUT
      then wait_loop fuel start_time w self (log (Sleep 1) (after_tick m1))
      else Some (Raise (PermanentlyFailedException
                          "Timed out waiting for service to come alive."),
                 self, after_tick m1) in
    match probe (net w (sent m)) with
    | Ok true => Some (Ok tt, self, m1)
    | Ok false | Raise ShouldRetryException => again
    | Raise e => Some (Raise e, self, m1)
    end.
Proof.
  cbn [wait_loop]. unfold bind at 1. unfold try_except at 1.
  rewrite is_alive_eq.
  destruct (net w (sent m)) as [r | |]; cbn [probe].
  - destruct (ok r); [reflexivity |].
    unfold bind, time_time, time_sleep, raise, after_tick, after_call; cbn.
    destruct (Qltb _ _); reflexivity.
  - unfold ret, bind, time_time, time_sleep, raise, after_tick, after_call; cbn.
    destruct (Qltb _ _); reflexivity.
  - reflexivity.
Qed.

Lemma recover_eq (fuel : nat) (w : World) (self : RobustService) (m : Machine) :
  recover fuel w self m =
    let '(self1, m1) :=
      match server self, configured (start_cmd self) with
      | None, Some argv =>
          (mkService (start_cmd self) (stop_cmd self) (endpoint self)
                     (Some (spawned m)) (is_active self),
           mkMachine (sent m) (ticks m) (ran m) (S (spawned m))
                     (trace m ++ [Popen argv]) (heap m))
      | _, _ => (self, m)
      end in
    match wait_loop fuel (wall w (ticks m1)) w self1 (after_tick m1) with
    | None => None
    | Some (Ok _, self2, m2) => Some (Ok None, set_active true self2, m2)
    | Some (Raise e, self2, m2) => Some (Raise e, self2, m2)
    end.
Proof.
  unfold recover. run.
  destruct (server self); [| destruct (configured (start_cmd self))]; cbn;
    unfold after_tick; cbn;
    match goal with |- context [wait_loop ?f ?t ?w ?s ?m] =>
      destruct (wait_loop f t w s m) as [[[[u | e] s2] m2] |] end; reflexivity.
Qed.

Lemma ensure_alive_eq (fuel : nat) (w : World) (self : RobustService)
    (m : Machine) :
  ensure_alive fuel w self m =
    if is_active self
    then match probe (net w (sent m)) with
         | Ok b => Some (Ok (Some b), self, after_call (ping self) m)
         | Raise ShouldRetryException =>
             recover fuel w self (after_call (ping self) m)
         | Raise e => Some (Raise e, self, after_call (ping self) m)
         end
    else recover fuel w self m.
Proof.
  unfold ensure_alive. unfold bind at 1. unfold get_self at 1.
  unfold bind at 1.
  destruct (is_active self).
  - unfold try_except at 1. unfold bind at 1. rewrite is_alive_eq.
    destruct (net w (sent m)) as [r | |]; cbn [probe]; reflexivity.
  - reflexivity.
Qed.

(** ** The waiting loop *)

Section Waiting.

Variable w : World.
Variable self : RobustService.
Variable start_time : Q.


(** [k] failed rounds inside the window, then a failed probe after which
    the clock has left the window. *)
Lemma wait_loop_times_out (k : nat) :
  forall (fuel : nat) (m : Machine),
    (k < fuel)%nat ->
    (forall j, (j <= k)%nat -> not_yet (net w (sent m + j)) = true) ->
    (forall j, (j < k)%nat ->
               (wall w (ticks m + j) - start_time < TIMEOUT)%Q) ->
    (TIMEOUT <= wall w (ticks m + k) - start_time)%Q ->
    exists m',
      wait_loop fuel start_time w self m =
        Some (Raise (PermanentlyFailedException
                       "Timed out waiting for service to come alive."),
              self, m') /\
      sent m' = (sent m + S k)%nat /\
      trace m' = (trace m ++ rounds self k ++ [ping self])%list /\
      heap m' = heap m.
Proof.
  induction k as [| k IH]; intros fuel m Hfuel Hfail Hclock Hlate;
    (destruct fuel as [| fuel]; [lia |]); rewrite wait_loop_step; cbn zeta;
    pose proof (Hfail 0%nat ltac:(lia)) as H0; rewrite Nat.add_0_r in H0;
    unfold not_yet in H0.
  - rewrite Nat.add_0_r in Hlate. apply Qltb_ge in Hlate. rewrite Hlate.
    eexists.
    split; [destruct (probe (net w (sent m))) as [[|] | []]; try discriminate;
            reflexivity |].
    cbn. repeat split; lia.
  - pose proof (Hclock 0%nat ltac:(lia)) as C0.
    rewrite Nat.add_0_r in C0. apply Qltb_lt in C0. rewrite C0.
    destruct (IH fuel (log (Sleep 1) (after_tick (after_call (ping self) m))))
      as (m' & Hrun & Hsent & Htrace & Hheap).
    + lia.
    + intros j Hj. cbn. replace (S (sent m + j)) with (sent m + S j)%nat by lia.
      apply Hfail. lia.
    + intros j Hj. cbn. replace (S (ticks m + j)) with (ticks m + S j)%nat by lia.
      apply Hclock. lia.
    + cbn. replace (S (ticks m + k)) with (ticks m + S k)%nat by lia. exact Hlate.
    + exists m'.
      split; [destruct (probe (net w (sent m))) as [[|] | []]; try discriminate;
              exact Hrun |].
      cbn in Hsent, Htrace, Hheap. repeat split.
      * lia.
      * rewrite Htrace. cbn [rounds]. rewrite <- !app_assoc. reflexivity.
      * exact Hheap.
Qed.

(** The loop never lets [ShouldRetryException] out, and leaves [self] as
    it was. *)
Lemma wait_loop_absorbs (fuel : nat) :
  forall (m : Machine) (r : result unit) (self' : RobustService) (m' : Machine),
    wait_loop fuel start_time w self m = Some (r, self', m') ->
    r <> Raise ShouldRetryException /\ self' = self.
Proof.
  induction fuel as [| fuel IH]; intros m r self' m' Hrun; [discriminate |].
  rewrite wait_loop_step in Hrun; cbn zeta in Hrun.
  destruct (probe (net w (sent m))) as [[|] | e] eqn:P.
  - inversion Hrun; subst. split; [discriminate | reflexivity].
  - destruct (Qltb _ _); [eapply IH; eassumption |].
    inversion Hrun; subst. split; [discriminate | reflexivity].
  - unfold probe in P. destruct (net w (sent m)); try discriminate;
      inversion P; subst.
    + destruct (Qltb _ _); [eapply IH; eassumption |].
      inversion Hrun; subst. split; [discriminate | reflexivity].
    + inversion Hrun; subst. split; [discriminate | reflexivity].
Qed.

End Waiting.

(** ** [ensure_alive] *)


Lemma recover_times_out (w : World) (self : RobustService) (m : Machine)
    (k fuel : nat) :
  (k < fuel)%nat ->
  (forall j, (j <= k)%nat -> not_yet (net w (sent m + j)) = true) ->
  (forall j, (j < k)%nat ->
             (wall w (ticks m + S j) - wall w (ticks m) < TIMEOUT)%Q) ->
  (TIMEOUT <= wall w (ticks m + S k) - wall w (ticks m))%Q ->
  exists self' m',
    recover fuel w self m =
      Some (Raise (PermanentlyFailedException
                     "Timed out waiting for service to come alive."),
            self', m') /\
    is_active self' = is_active self /\
    sent m' = (sent m + S k)%nat.
Proof.
  intros Hfuel Hfail Hclock Hlate. rewrite recover_eq.
  set (started := match server self, configured (start_cmd self) with
                  | None, Some argv => _
                  | _, _ => _
                  end).
  assert (Hsame : sent (snd started) = sent m /\ ticks (snd started) = ticks m
                  /\ is_active (fst started) = is_active self).
  { subst started. destruct (server self); [| destruct (configured _)];
      repeat split; reflexivity. }
  destruct started as [self1 m1]. cbn [fst snd] in Hsame.
  destruct Hsame as (Hs & Ht & Ha).
  destruct (wait_loop_times_out w self1 (wall w (ticks m1)) k fuel (after_tick m1))
    as (m' & Hrun & Hsent & _); cbn [sent ticks after_tick]; rewrite ?Hs, ?Ht; auto.
  - intros j Hj. replace (S (ticks m) + j)%nat with (ticks m + S j)%nat by lia.
    auto.
  - replace (S (ticks m) + k)%nat with (ticks m + S k)%nat by lia. exact Hlate.
  - cbv beta iota zeta. rewrite Ht in Hrun. rewrite Hrun.
    eexists _, _. repeat split; [exact Ha |].
    cbn [sent after_tick] in Hsent. lia.
Qed.

Lemma recover_absorbs (fuel : nat) (w : World) (self : RobustService)
    (m : Machine) (r : result (option bool)) (self' : RobustService)
    (m' : Machine) :
  recover fuel w self m = Some (r, self', m') ->
  r <> Raise ShouldRetryException.
Proof.
  rewrite recover_eq.
  destruct (match server self, configured (start_cmd self) with
            | None, Some argv => _
            | _, _ => _
            end) as [self1 m1].
  destruct (wait_loop fuel (wall w (ticks m1)) w self1 (after_tick m1))
    as [[[[u | e] self2] m2] |] eqn:Hrun; intros H; inversion H; subst.
  - discriminate.
  - apply wait_loop_absorbs in Hrun. destruct Hrun as [Hne _].
    intros Heq. inversion Heq; subst. apply Hne. reflexivity.
Qed.

(** Not active on entry: if every probe fails until the clock has left the
    window, [ensure_alive] raises [PermanentlyFailedException] after exactly
    those probes, and the service is still not active. *)
Lemma ensure_alive_times_out (w : World) (self : RobustService) (m : Machine)
    (k fuel : nat) :
  is_active self = false ->
  (k < fuel)%nat ->
  (forall j, (j <= k)%nat -> not_yet (net w (sent m + j)) = true) ->
  (forall j, (j < k)%nat ->
             (wall w (ticks m + S j) - wall w (ticks m) < TIMEOUT)%Q) ->
  (TIMEOUT <= wall w (ticks m + S k) - wall w (ticks m))%Q ->
  exists self' m',
    ensure_alive fuel w self m =
      Some (Raise (PermanentlyFailedException
                     "Timed out waiting for service to come alive."),
            self', m') /\
    is_active self' = false /\
    sent m' = (sent m + S k)%nat.
Proof.
  intros Hidle Hfuel Hfail Hclock Hlate.
  rewrite ensure_alive_eq, Hidle.
  destruct (recover_times_out w self m k fuel Hfuel Hfail Hclock Hlate)
    as (self' & m' & Hrun & Ha & Hsent).
  exists self', m'. rewrite Hrun, Ha. auto.
Qed.



(** C2: a service that is active on entry and whose probes all answer false
    (the server replies 500 to every call): [ensure_alive] returns [False]
    after a single probe instead of raising [PermanentlyFailedException]. *)
Theorem ensure_alive_active_unhealthy (fuel : nat) :
  (forall n, probe (net unhealthy n) = Ok false) /\
  ensure_alive fuel unhealthy running boot =
    Some (Ok (Some false), running, after_call (ping running) boot).
Proof.
  split; [reflexivity |].
  rewrite ensure_alive_eq. reflexivity.
Qed.

(** C6: whatever the network, the clock and the commands answer,
    [ensure_alive] does not end in [ShouldRetryException]. *)
Theorem ensure_alive_absorbs_ShouldRetry (fuel : nat) (w : World)
    (self : RobustService) (m : Machine) (r : result (option bool))
    (self' : RobustService) (m' : Machine) :
  ensure_alive fuel w self m = Some (r, self', m') ->
  r <> Raise ShouldRetryException.
Proof.
  rewrite ensure_alive_eq. destruct (is_active self).
  - destruct (probe (net w (sent m))) as [b | e] eqn:P.
    + intros H; inversion H; subst. discriminate.
    + unfold probe in P. destruct (net w (sent m)); try discriminate;
        inversion P; subst.
      * apply recover_absorbs.
      * intros H; inversion H; subst. discriminate.
  - apply recover_absorbs.
Qed.

Lemma ensure_alive_absorbs_ShouldRetry_witness :
  is_alive down running boot =
    Some (Raise ShouldRetryException, running, after_call (ping running) boot) /\
  exists r self' m',
    ensure_alive 20 down running boot = Some (r, self', m') /\
    r <> Raise ShouldRetryException.
Proof.
  split; [reflexivity |].
  eexists _, _, _. split; [vm_compute; reflexivity |].
  eapply (ensure_alive_absorbs_ShouldRetry 20 down running boot).
  vm_compute; reflexivity.
Defined.

(** ** [is_alive] *)

Lemma ok_iff (r : Response) :
  ok r = true <-> ~ (400 <= status_code r < 600).
Proof.
  unfold ok, raise_for_status.
  destruct (400 <=? status_code r) eqn:Lo; destruct (status_code r <? 600) eqn:Hi;
    cbn; split; try discriminate; try reflexivity; try lia.
Qed.

Lemma ok_false_iff (r : Response) :
  ok r = false <-> 400 <= status_code r < 600.
Proof.
  pose proof (ok_iff r) as H. destruct (ok r).
  - split; [discriminate |]. intros Hr. exfalso. apply H; [reflexivity | exact Hr].
  - split; [intros _ | reflexivity].
    destruct (Z_le_dec 400 (status_code r)); destruct (Z_lt_dec (status_code r) 600);
      try lia; exfalso; assert (false = true) by (apply H; lia); discriminate.
Qed.

(** C5, as the code has it: [is_alive] sends one GET to [endpoint + "/ping"];
    it returns true exactly when the response's status is outside 400..599
    (every 2xx status is), false exactly when it is inside, and raises
    [ShouldRetryException] exactly when the connection is refused. *)
Theorem is_alive_by_status (w : World) (self : RobustService) (m : Machine) :
  let m' := after_call (GET (endpoint self ++ "/ping") [] None) m in
  (exists r, is_alive w self m = Some (r, self, m')) /\
  (is_alive w self m = Some (Ok true, self, m') <->
   exists r, net w (sent m) = Answered r /\ ~ (400 <= status_code r < 600)) /\
  (is_alive w self m = Some (Ok false, self, m') <->
   exists r, net w (sent m) = Answered r /\ 400 <= status_code r < 600) /\
  (is_alive w self m = Some (Raise ShouldRetryException, self, m') <->
   net w (sent m) = Refused) /\
  (forall r, net w (sent m) = Answered r -> 200 <= status_code r < 300 ->
             is_alive w self m = Some (Ok true, self, m')).
Proof.
  cbn zeta. rewrite is_alive_eq. fold (ping self).
  repeat split.
  - eexists; reflexivity.
  - intros H. destruct (net w (sent m)) as [r | |]; inversion H as [Hok].
    exists r. split; [reflexivity | apply ok_iff; exact Hok].
  - intros (r & -> & Hr). cbn. apply ok_iff in Hr. rewrite Hr. reflexivity.
  - intros H. destruct (net w (sent m)) as [r | |]; inversion H as [Hok].
    exists r. split; [reflexivity | apply ok_false_iff; exact Hok].
  - intros (r & -> & Hr). cbn. apply ok_false_iff in Hr. rewrite Hr. reflexivity.
  - intros H. destruct (net w (sent m)) as [r | |]; inversion H. reflexivity.
  - intros ->. reflexivity.
  - intros r -> Hr. cbn.
    assert (Hok : ok r = true) by (apply ok_iff; lia). rewrite Hok. reflexivity.
Qed.

(** A 304 answer is outside the 2xx range and [is_alive] returns true. *)
Lemma is_alive_true_on_304 :
  net not_modified (sent boot) = respond 304 TIMED_OUT /\
  ~ (200 <= 304 < 300) /\
  is_alive not_modified passive boot =
    Some (Ok true, passive, after_call (ping passive) boot).
Proof.
  split; [reflexivity |]. split; [lia |]. reflexivity.
Qed.

(** ** [stop] *)

Lemma stop_eq (w : World) (self : RobustService) (m : Machine) :
  stop w self m =
    let m1 := match server self with
              | Some p => log (Kill p) m
              | None => m
              end in
    match configured (stop_cmd self) with
    | Some argv =>
        let m2 := mkMachine (sent m1) (ticks m1) (S (ran m1)) (spawned m1)
                            (trace m1 ++ [Run argv]) (heap m1) in
        if exit_status w (ran m1) =? 0
        then Some (Ok tt, set_active false self, m2)
        else Some (Raise (CalledProcessError (exit_status w (ran m1))), self, m2)
    | None => Some (Ok tt, set_active false self, m1)
    end.
Proof.
  run. destruct (server self); destruct (configured (stop_cmd self)); cbn;
    try destruct (_ =? 0); reflexivity.
Qed.



(** ** What the readiness gate does to the machine *)

Lemma posts_app (t1 t2 : list event) : posts (t1 ++ t2) = (posts t1 ++ posts t2)%list.
Proof. apply List.filter_app. Qed.

Lemma wait_loop_effects (w : World) (self : RobustService) (start_time : Q)
    (fuel : nat) :
  forall (m : Machine) (r : result unit) (self' : RobustService) (m' : Machine),
    wait_loop fuel start_time w self m = Some (r, self', m') ->
    self' = self /\ heap m' = heap m /\ posts (trace m') = posts (trace m) /\
    (sent m < sent m')%nat.
Proof.
  induction fuel as [| fuel IH]; intros m r self' m' Hrun; [discriminate |].
  rewrite wait_loop_step in Hrun; cbn zeta in Hrun.
  assert (Hstop : forall (r0 : result unit) (m0 : Machine),
             heap m0 = heap m -> posts (trace m0) = posts (trace m) ->
             (sent m < sent m0)%nat ->
             Some (r0, self, m0) = Some (r, self', m') ->
             self' = self /\ heap m' = heap m /\
             posts (trace m') = posts (trace m) /\ (sent m < sent m')%nat).
  { intros r0 m0 Hh Hp Hs Heq. inversion Heq; subst. auto. }
  assert (Hping : posts (trace m ++ [ping self]) = posts (trace m)).
  { rewrite posts_app. cbn. apply app_nil_r. }
  assert (Hagain :
            (if Qltb (wall w (ticks m) - start_time) TIMEOUT
             then wait_loop fuel start_time w self
                    (log (Sleep 1) (after_tick (after_call (ping self) m)))
             else Some (Raise (PermanentlyFailedException
                                 "Timed out waiting for service to come alive."),
                        self, after_tick (after_call (ping self) m)))
            = Some (r, self', m') ->
            self' = self /\ heap m' = heap m /\
            posts (trace m') = posts (trace m) /\ (sent m < sent m')%nat).
  { destruct (Qltb _ _).
    - intros Hrec. apply IH in Hrec. destruct Hrec as (Hs & Hh & Hp & Hn).
      cbn in Hh, Hp, Hn. repeat split; auto.
      + rewrite Hp, posts_app. cbn. rewrite app_nil_r. exact Hping.
      + lia.
    - apply Hstop; cbn; auto. }
  destruct (probe (net w (sent m))) as [[|] | []]; auto;
    apply Hstop in Hrun; cbn; auto.
Qed.

Lemma recover_effects (fuel : nat) (w : World) (self : RobustService)
    (m : Machine) (r : result (option bool)) (self' : RobustService)
    (m' : Machine) :
  recover fuel w self m = Some (r, self', m') ->
  endpoint self' = endpoint self /\ heap m' = heap m /\
  posts (trace m') = posts (trace m) /\ (sent m < sent m')%nat.
Proof.
  rewrite recover_eq.
  set (started := match server self, configured (start_cmd self) with
                  | None, Some argv => _
                  | _, _ => _
                  end).
  assert (Hsame : endpoint (fst started) = endpoint self /\
                  heap (snd started) = heap m /\
                  posts (trace (snd started)) = posts (trace m) /\
                  sent (snd started) = sent m).
  { subst started. destruct (server self); [| destruct (configured _)]; cbn;
      rewrite ?posts_app, ?app_nil_r; auto. }
  destruct started as [self1 m1]. cbn [fst snd] in Hsame.
  destruct Hsame as (He & Hh & Hp & Hs). cbv beta iota zeta.
  destruct (wait_loop fuel (wall w (ticks m1)) w self1 (after_tick m1))
    as [[[[u | e] self2] m2] |] eqn:Hrun; intros H; inversion H; subst;
    apply wait_loop_effects in Hrun; destruct Hrun as (-> & Hh2 & Hp2 & Hn);
    cbn [heap trace sent after_tick] in Hh2, Hp2, Hn; repeat split; cbn [endpoint set_active];
    try congruence; lia.
Qed.

Lemma ensure_alive_effects (fuel : nat) (w : World) (self : RobustService)
    (m : Machine) (r : result (option bool)) (self' : RobustService)
    (m' : Machine) :
  ensure_alive fuel w self m = Some (r, self', m') ->
  endpoint self' = endpoint self /\ heap m' = heap m /\
  posts (trace m') = posts (trace m) /\ (sent m < sent m')%nat.
Proof.
  rewrite ensure_alive_eq.
  assert (Hping : posts (trace m ++ [ping self]) = posts (trace m)).
  { rewrite posts_app. cbn. apply app_nil_r. }
  assert (Hstop : forall r0,
             Some (r0, self, after_call (ping self) m) = Some (r, self', m') ->
             endpoint self' = endpoint self /\ heap m' = heap m /\
             posts (trace m') = posts (trace m) /\ (sent m < sent m')%nat).
  { intros r0 Heq. inversion Heq; subst. cbn. repeat split; auto. }
  destruct (is_active self); [| apply recover_effects].
  destruct (probe (net w (sent m))) as [b | []]; try apply Hstop.
  intros Hrec. apply recover_effects in Hrec.
  destruct Hrec as (He & Hh & Hp & Hn).
  cbn [heap trace sent after_call] in Hh, Hp, Hn.
  repeat split; auto; [congruence | lia].
Qed.

(** ** [_request] *)

Lemma _request_eq (fuel : nat) (buf : string) (properties : dict) (w : World)
    (self : CoreNLPClient) (m : Machine) :
  _request fuel buf properties w self m =
    match super (ensure_alive fuel) w self m with
    | None => None
    | Some (Raise e, self1, m1) => Some (Raise e, self1, m1)
    | Some (Ok _, self1, m1) =>
        match content_type_for properties with
        | Raise e => Some (Raise e, self1, m1)
        | Ok ctype =>
            let m2 := after_call (POST (endpoint (base self1)) properties buf ctype)
                                 m1 in
            match net w (sent m1) with
            | Answered r => Some (verdict r, self1, m2)
            | Refused => Some (Raise ConnectionError, self1, m2)
            | Broken => Some (Raise RequestException, self1, m2)
            end
        end
    end.
Proof.
  unfold _request. unfold bind at 1.
  destruct (super (ensure_alive fuel) w self m) as [[[[v | e] self1] m1] |];
    try reflexivity.
  unfold bind at 1. unfold get_self at 1. unfold bind at 1.
  unfold content_type_for.
  destruct (default (PStr "text") (dict_get properties "inputFormat"));
    try reflexivity.
  assert (Hpost : forall ctype,
    (r <- requests_post (endpoint (base self1)) properties buf ctype ;;
     try_except (lift (raise_for_status r) ;; ret r)
       (fun e => match e with
                 | HTTPError =>
                     Some (if String.eqb (text r) TIMED_OUT
                           then raise (TimeoutException (text r))
                           else raise (AnnotationException (text r)))
                 | _ => None
                 end)) w self1 m1 =
    match net w (sent m1) with
    | Answered r =>
        Some (verdict r, self1,
              after_call (POST (endpoint (base self1)) properties buf ctype) m1)
    | Refused =>
        Some (Raise ConnectionError, self1,
              after_call (POST (endpoint (base self1)) properties buf ctype) m1)
    | Broken =>
        Some (Raise RequestException, self1,
              after_call (POST (endpoint (base self1)) properties buf ctype) m1)
    end).
  { intros ctype. run. unfold after_call, verdict, raise_for_status.
    destruct (net w (sent m1)) as [r | |]; try reflexivity.
    destruct ((400 <=? status_code r) && (status_code r <? 600)); cbn;
      [destruct (String.eqb (text r) TIMED_OUT) |]; reflexivity. }
  destruct (String.eqb s "text"); [cbn; apply Hpost |].
  destruct (String.eqb s "serialized"); [cbn; apply Hpost |].
  reflexivity.
Qed.

Lemma gate_effects (fuel : nat) (w : World) (self : CoreNLPClient) (m : Machine)
    (r : result (option bool)) (self1 : CoreNLPClient) (m1 : Machine) :
  super (ensure_alive fuel) w self m = Some (r, self1, m1) ->
  endpoint (base self1) = endpoint (base self) /\
  default_properties self1 = default_properties self /\
  heap m1 = heap m /\
  posts (trace m1) = posts (trace m) /\
  (sent m < sent m1)%nat.
Proof.
  unfold super.
  destruct (ensure_alive fuel w (base self) m) as [[[r0 base1] m0] |] eqn:Hrun;
    [| discriminate].
  intros H; inversion H; subst. apply ensure_alive_effects in Hrun.
  destruct Hrun as (He & Hh & Hp & Hn). cbn. auto.
Qed.




(** C4, as the code has it: [_request] first passes the readiness gate,
    which sends at least one HTTP call and no POST.  Then an [inputFormat]
    of ["text"] (or none) sends the POST as [text/plain; charset=utf-8],
    ["serialized"] sends it as [application/x-protobuf], and any other
    string raises [ValueError] with nothing sent after the gate. *)
Theorem _request_content_type (fuel : nat) (w : World) (self : CoreNLPClient)
    (m : Machine) (buf : string) (properties : dict) (v : option bool)
    (self1 : CoreNLPClient) (m1 : Machine) :
  super (ensure_alive fuel) w self m = Some (Ok v, self1, m1) ->
  (sent m < sent m1)%nat /\
  posts (trace m1) = posts (trace m) /\
  (default (PStr "text") (dict_get properties "inputFormat") = PStr "text" ->
   exists r,
     _request fuel buf properties w self m =
       Some (r, self1,
             after_call (POST (endpoint (base self1)) properties buf
                              "text/plain; charset=utf-8") m1)) /\
  (dict_get properties "inputFormat" = Some (PStr "serialized") ->
   exists r,
     _request fuel buf properties w self m =
       Some (r, self1,
             after_call (POST (endpoint (base self1)) properties buf
                              "application/x-protobuf") m1)) /\
  (forall s,
     dict_get properties "inputFormat" = Some (PStr s) ->
     s <> "text" -> s <> "serialized" ->
     _request fuel buf properties w self m =
       Some (Raise (ValueError ("Unrecognized inputFormat " ++ s)), self1, m1)).
Proof.
  intros Hgate. pose proof (gate_effects _ _ _ _ _ _ _ Hgate) as (_ & _ & _ & Hp & Hn).
  split; [exact Hn |]. split; [exact Hp |].
  rewrite _request_eq, Hgate. unfold content_type_for.
  split_and!.
  - intros ->. cbn. destruct (net w (sent m1)); eexists; reflexivity.
  - intros ->. cbn. destruct (net w (sent m1)); eexists; reflexivity.
  - intros s -> Htext Hser. cbn.
    apply String.eqb_neq in Htext, Hser. rewrite Htext, Hser. reflexivity.
Qed.

Lemma _request_content_type_witness :
  exists self1 m1,
    _request 1 "Alice ran." [("inputFormat", PStr "xml")] healthy client boot =
      Some (Raise (ValueError "Unrecognized inputFormat xml"), self1, m1).
Proof.
  eexists _, _.
  refine (proj2 (proj2 (proj2 (proj2
            (_request_content_type 1 healthy client boot "Alice ran."
               [("inputFormat", PStr "xml")] None _ _ _)))) "xml" _ _ _);
    try reflexivity; discriminate.
Defined.

(** With an unknown [inputFormat] the call raises only after a GET to
    [/ping] has gone out. *)
Lemma _request_probes_before_rejecting :
  exists self1 m1,
    _request 1 "Alice ran." [("inputFormat", PStr "xml")] healthy client boot =
      Some (Raise (ValueError "Unrecognized inputFormat xml"), self1, m1) /\
    trace m1 = [GET "http://localhost:9000/ping" [] None] /\
    sent m1 = 1%nat.
Proof.
  eexists _, _. vm_compute. repeat split; reflexivity.
Qed.

(** ** [semgrex_matches_to_indexed_words] *)

Lemma dict_get_set_same (d : dict) (k : string) (v : pyval) :
  dict_get (dict_set d k v) k = Some v.
Proof.
  induction d as [| [k' v'] d IH]; cbn.
  - rewrite String.eqb_refl. reflexivity.
  - destruct (String.eqb k' k) eqn:E; cbn; rewrite E; [reflexivity | exact IH].
Qed.

Lemma dict_get_set_other (d : dict) (k k' : string) (v : pyval) :
  k <> k' -> dict_get (dict_set d k v) k' = dict_get d k'.
Proof.
  intros Hne. induction d as [| [k0 v0] d IH]; cbn.
  - apply String.eqb_neq in Hne. rewrite Hne. reflexivity.
  - destruct (String.eqb k0 k) eqn:E; cbn.
    + apply String.eqb_eq in E. subst k0.
      apply String.eqb_neq in Hne. rewrite Hne. reflexivity.
    + destruct (String.eqb k0 k'); [reflexivity | exact IH].
Qed.

(** A key that is present stays present. *)
Lemma dict_set_keeps (d : dict) (k k' : string) (v : pyval) :
  dict_get d k' <> None -> dict_get (dict_set d k v) k' <> None.
Proof.
  intros Hin. destruct (String.eqb_spec k k') as [-> | Hne].
  - rewrite dict_get_set_same. discriminate.
  - rewrite dict_get_set_other by exact Hne. exact Hin.
Qed.

Lemma sentence_words_tagged (keep : nat -> bool) (i : nat) (s : sentence) :
  forall words,
    sentence_words keep i s = Ok words ->
    Forall (tagged i) words /\ (keep i = false -> words = []) /\
    length words =
      (if keep i
       then length (List.filter (fun kv => negb (String.eqb (fst kv) "length")) s)
       else 0%nat).
Proof.
  induction s as [| [k v] s IH]; intros words Hrun; cbn in Hrun.
  - inversion Hrun; subst. repeat split; auto. destruct (keep i); reflexivity.
  - cbn [List.filter fst]. destruct (negb (String.eqb k "length")) eqn:Hk;
      destruct (keep i) eqn:Hkeep; cbn in Hrun.
    + destruct v as [n | d]; cbn in Hrun; [discriminate |].
      destruct (sentence_words keep i s) as [rest | e]; [| discriminate].
      inversion Hrun; subst. destruct (IH rest eq_refl) as (Ht & _ & Hlen).
      repeat split.
      * constructor; [apply dict_get_set_same | exact Ht].
      * discriminate.
      * cbn. rewrite Hlen. reflexivity.
    + apply IH in Hrun. exact Hrun.
    + apply IH in Hrun. exact Hrun.
    + apply IH in Hrun. exact Hrun.
Qed.

(** With a filter on the sentence index, every record comes from the
    sentence asked for. *)
Lemma indexed_words_restricted (n : Z) (ss : list sentence) :
  forall (i : nat) (words : list dict),
    indexed_words (fun j => Z.of_nat j =? n) i ss = Ok words ->
    Forall (fun word => dict_get word "sent_index" = Some (PInt n)) words.
Proof.
  induction ss as [| s ss IH]; intros i words Hrun; cbn in Hrun.
  - inversion Hrun. constructor.
  - destruct (sentence_words _ i s) as [ws | e] eqn:Hs; [| discriminate].
    destruct (indexed_words _ (S i) ss) as [rest | e] eqn:Hrest; [| discriminate].
    inversion Hrun; subst. apply Forall_app. split; [| eapply IH; eassumption].
    apply sentence_words_tagged in Hs. destruct Hs as (Ht & Hnone & _).
    destruct (Z.of_nat i =? n) eqn:Hi.
    + apply Z.eqb_eq in Hi. subst n. exact Ht.
    + rewrite Hnone by reflexivity. constructor.
Qed.

(** Without a filter, every entry whose key is not [length] gives one
    record, tagged with the index of its sentence. *)
Lemma indexed_words_all (ss : list sentence) :
  forall (i : nat) (words : list dict),
    indexed_words (fun _ => true) i ss = Ok words ->
    length words =
      length (List.filter (fun kv => negb (String.eqb (fst kv) "length"))
                          (List.concat ss)).
Proof.
  induction ss as [| s ss IH]; intros i words Hrun; cbn in Hrun.
  - inversion Hrun. reflexivity.
  - destruct (sentence_words _ i s) as [ws | e] eqn:Hs; [| discriminate].
    destruct (indexed_words _ (S i) ss) as [rest | e] eqn:Hrest; [| discriminate].
    inversion Hrun; subst. cbn [List.concat].
    rewrite List.filter_app, !length_app.
    apply sentence_words_tagged in Hs. destruct Hs as (_ & _ & Hlen).
    rewrite Hlen. rewrite (IH _ _ Hrest). reflexivity.
Qed.

(** A [sent_index] that Python takes for true restricts the output to
    that sentence. *)
Lemma flatten_restricts_nonzero (matches : Matches) (n : Z) (words : list dict) :
  n <> 0 ->
  semgrex_matches_to_indexed_words matches (Some n) = Ok words ->
  Forall (fun word => dict_get word "sent_index" = Some (PInt n)) words.
Proof.
  intros Hn. unfold semgrex_matches_to_indexed_words.
  apply Z.eqb_neq in Hn. rewrite Hn. cbn. apply indexed_words_restricted.
Qed.

(** The example of the specification: two records, tagged 0 and 1, neither
    with a [length] entry. *)
Lemma flatten_alice_ran :
  semgrex_matches_to_indexed_words alice_ran None =
    Ok [ [("word", PStr "Alice"); ("sent_index", PInt 0)];
         [("word", PStr "ran"); ("sent_index", PInt 1)] ] /\
  semgrex_matches_to_indexed_words alice_ran (Some 1) =
    Ok [ [("word", PStr "ran"); ("sent_index", PInt 1)] ].
Proof. split; reflexivity. Qed.

(** C7: asked for sentence 0 of the two-sentence example,
    [semgrex_matches_to_indexed_words] returns the words of both sentences:
    [if sent_index:] takes the index 0 for "no index given". *)
Theorem flatten_sent_index_zero_unrestricted :
  semgrex_matches_to_indexed_words alice_ran (Some 0) =
    Ok [ [("word", PStr "Alice"); ("sent_index", PInt 0)];
         [("word", PStr "ran"); ("sent_index", PInt 1)] ].
Proof. reflexivity. Qed.

(** ** [annotate] and [update] on the default properties *)

Lemma _request_frame (fuel : nat) (buf : string) (properties : dict) (w : World)
    (self : CoreNLPClient) (m : Machine) (r : result Response)
    (self' : CoreNLPClient) (m' : Machine) :
  _request fuel buf properties w self m = Some (r, self', m') ->
  default_properties self' = default_properties self /\ heap m' = heap m.
Proof.
  rewrite _request_eq.
  destruct (super (ensure_alive fuel) w self m) as [[[[v | e] self1] m1] |] eqn:Hgate;
    [| | discriminate];
    apply gate_effects in Hgate; destruct Hgate as (_ & Hd & Hh & _).
  - destruct (content_type_for properties);
      [destruct (net w (sent m1)) |]; intros H; inversion H; subst; auto.
  - intros H; inversion H; subst; auto.
Qed.

Lemma dict_update_request_properties (d : dict) (annotators : list string)
    (input_format : string) :
  let d' := dict_update d (request_properties annotators input_format) in
  dict_get d' "annotators" = Some (PStr (join "," annotators)) /\
  dict_get d' "inputFormat" = Some (PStr input_format) /\
  dict_get d' "outputFormat" = Some (PStr "serialized") /\
  dict_get d' "serializer" = Some (PStr SERIALIZER) /\
  (forall k, ~ In k request_keys -> dict_get d' k = dict_get d k) /\
  (forall k, dict_get d k <> None -> dict_get d' k <> None).
Proof.
  cbn zeta. unfold dict_update, request_properties. cbn [fold_left fst snd].
  split_and!.
  - rewrite !dict_get_set_other by discriminate. apply dict_get_set_same.
  - rewrite !dict_get_set_other by discriminate. apply dict_get_set_same.
  - rewrite !dict_get_set_other by discriminate. apply dict_get_set_same.
  - apply dict_get_set_same.
  - intros k Hk. unfold request_keys in Hk. cbn in Hk.
    rewrite !dict_get_set_other;
      [reflexivity | intros Heq; subst k; apply Hk; auto 10 ..].
  - intros k Hk. repeat apply dict_set_keeps. exact Hk.
Qed.

Section Defaults.

Context {Document : Type} `{Libraries Document}.

Lemma annotate_eq (fuel : nat) (text : string) (annotators : option (list string))
    (w : World) (self : CoreNLPClient) (m : Machine) :
  annotate fuel text annotators None w self m =
    let d := dict_update (deref m (default_properties self))
               (request_properties
                  (annotators_or annotators (default_annotators self)) "text") in
    match _request fuel text d w self (store (default_properties self) d m) with
    | None => None
    | Some (Raise e, self', m') => Some (Raise e, self', m')
    | Some (Ok r, self', m') =>
        Some (parseFromDelimitedString (content r), self', m')
    end.
Proof.
  unfold annotate. run.
  destruct (_request _ _ _ _ _ _) as [[[[r | e] self'] m'] |]; reflexivity.
Qed.

Lemma update_eq (fuel : nat) (doc : Document) (annotators : option (list string))
    (w : World) (self : CoreNLPClient) (m : Machine) :
  update fuel doc annotators None w self m =
    let d := dict_update (deref m (default_properties self))
               (request_properties
                  (annotators_or annotators (default_annotators self))
                  "serialized") in
    match _request fuel (writeToDelimitedString doc) d w self
            (store (default_properties self) d m) with
    | None => None
    | Some (Raise e, self', m') => Some (Raise e, self', m')
    | Some (Ok r, self', m') =>
        Some (parseFromDelimitedString (content r), self', m')
    end.
Proof.
  unfold update. run.
  destruct (_request _ _ _ _ _ _) as [[[[r | e] self'] m'] |]; reflexivity.
Qed.


End Defaults.


(** X18: whatever the arguments, a completed [annotate] or [update] removes
    no key from any shared mapping: what a call has written into the
    defaults stays there for the later calls. *)
Lemma keys_persist {Document : Type} `{Libraries Document} (fuel : nat)
    (text : string) (doc : Document) (annotators : option (list string))
    (properties : option dict) (w : World) (self : CoreNLPClient) (m : Machine)
    (r : result Document) (self' : CoreNLPClient) (m' : Machine) (l : loc)
    (k : string) :
  annotate fuel text annotators properties w self m = Some (r, self', m') \/
  update fuel doc annotators properties w self m = Some (r, self', m') ->
  dict_get (deref m l) k <> None ->
  dict_get (deref m' l) k <> None.
Proof.
  intros Hcall Hk. destruct properties as [p |].
  - assert (Hh : heap m' = heap m).
    { destruct Hcall as [Hrun | Hrun]; unfold annotate, update in Hrun;
        unfold bind at 1 in Hrun; unfold get_self at 1 in Hrun;
        unfold bind at 1 in Hrun; unfold ret at 1 in Hrun;
        unfold bind at 1 in Hrun;
        destruct (_request _ _ _ _ _ _) as [[[[r0 | e] self1] m1] |] eqn:Hreq;
        try discriminate; apply _request_frame in Hreq; destruct Hreq as [_ Hh];
        unfold lift in Hrun; inversion Hrun; subst; exact Hh. }
    unfold deref in *. rewrite Hh. exact Hk.
  - assert (Hspec : exists input_format,
               heap m' !! default_properties self =
                 Some (dict_update (deref m (default_properties self))
                         (request_properties
                            (annotators_or annotators (default_annotators self))
                            input_format)) /\
               forall l', l' <> default_properties self ->
                          heap m' !! l' = heap m !! l').
    { destruct Hcall as [Hrun | Hrun];
        [exists "text"; rewrite annotate_eq in Hrun
        | exists "serialized"; rewrite update_eq in Hrun];
        cbn zeta in Hrun;
        destruct (_request _ _ _ _ _ _) as [[[[r0 | e] self1] m1] |] eqn:Hreq;
        try discriminate; apply _request_frame in Hreq; destruct Hreq as [_ Hh];
        cbn [heap store] in Hh;
        (assert (m1 = m') by (inversion Hrun; reflexivity)); subst m1;
        rewrite Hh; split;
        try apply lookup_insert_eq;
        intros l' Hl'; apply lookup_insert_ne; congruence. }
    destruct Hspec as (input_format & Hat & Helse).
    destruct (Nat.eq_dec l (default_properties self)) as [-> | Hne].
    + unfold deref at 1. rewrite Hat.
      apply dict_update_request_properties. exact Hk.
    + unfold deref in *. rewrite (Helse l Hne). exact Hk.
Qed.

(** ** Pattern queries *)

Lemma append_cancel (s a b : string) : s ++ a = s ++ b -> a = b.
Proof.
  induction s as [| c s IH]; cbn; intros Heq; [exact Heq |].
  inversion Heq. auto.
Qed.

Section Queries.

Context {Document : Type} `{Libraries Document}.

Lemma __regex_eq (path text pattern : string) (filter unique : bool) (w : World)
    (self : CoreNLPClient) (m : Machine) :
  __regex path text pattern filter unique w self m =
    let m' := after_call (GET (endpoint (base self) ++ path)
                              (regex_params pattern filter unique) (Some text)) m in
    match net w (sent m) with
    | Answered r =>
        Some (Ok match json_loads (requests.text r) with
                 | Some j => Json j
                 | None => RawText (requests.text r)
                 end, self, m')
    | Refused => Some (Raise ConnectionError, self, m')
    | Broken => Some (Raise RequestException, self, m')
    end.
Proof.
  unfold __regex. run. unfold after_call, regex_params.
  destruct (net w (sent m)); reflexivity.
Qed.

(** Flattening sends nothing and leaves [self] alone. *)
Lemma flattened_pure (matches : output) (sent_index : option Z) (w : World)
    (self : CoreNLPClient) (m : Machine) (r : result query_result)
    (self' : CoreNLPClient) (m' : Machine) :
  flattened matches sent_index w self m = Some (r, self', m') ->
  self' = self /\ m' = m.
Proof.
  unfold flattened. destruct matches as [s | j].
  - intros Hrun; inversion Hrun; auto.
  - destruct (as_matches j); [| discriminate]. run.
    destruct (semgrex_matches_to_indexed_words _ _);
      intros Hrun; inversion Hrun; auto.
Qed.

(** C10: [tokensregex] sends its GET to [endpoint + "/semgrex"], the URL
    [semgrex] uses and not [endpoint + "/tokensregex"]; [tregrex] sends its
    GET to [endpoint + "/tregex"]. *)
Theorem tokensregex_queries_semgrex (text pattern : string)
    (filter unique flatten : bool) (sent_index : option Z) (w : World)
    (self : CoreNLPClient) (m : Machine) :
  let sends (path : string) (unique : bool) : Machine :=
    after_call (GET (endpoint (base self) ++ path)
                    (regex_params pattern filter unique) (Some text)) m in
  (exists r,
     tokensregex text pattern filter false sent_index w self m =
       Some (r, self, sends "/semgrex" false)) /\
  (forall r self' m',
     tokensregex text pattern filter flatten sent_index w self m =
       Some (r, self', m') ->
     self' = self /\ m' = sends "/semgrex" false) /\
  (exists r,
     semgrex text pattern filter unique false sent_index w self m =
       Some (r, self, sends "/semgrex" unique)) /\
  endpoint (base self) ++ "/semgrex" <> endpoint (base self) ++ "/tokensregex" /\
  (exists r,
     tregrex text pattern filter w self m = Some (r, self, sends "/tregex" false)).
Proof.
  cbn zeta. split_and!.
  - unfold tokensregex. unfold bind. rewrite __regex_eq. cbn zeta.
    destruct (net w (sent m)); eexists; reflexivity.
  - intros r self' m'. unfold tokensregex. unfold bind. rewrite __regex_eq.
    cbn zeta. destruct (net w (sent m)) as [resp | |].
    + destruct flatten; cbn [negb].
      * apply flattened_pure.
      * intros Hrun; inversion Hrun; auto.
    + intros Hrun; inversion Hrun; auto.
    + intros Hrun; inversion Hrun; auto.
  - unfold semgrex. unfold bind. rewrite __regex_eq. cbn zeta.
    destruct (net w (sent m)); eexists; reflexivity.
  - intros Heq. apply append_cancel in Heq. discriminate.
  - unfold tregrex. rewrite __regex_eq. cbn zeta.
    destruct (net w (sent m)); eexists; reflexivity.
Qed.

End Queries.

(** On a healthy world the trace of each query, spelled out. *)
Lemma query_urls :
  (exists r self' m',
     tokensregex "Alice ran." "{pos:NNP}" false false None healthy client boot =
       Some (r, self', m') /\
     trace m' = [GET "http://localhost:9000/semgrex"
                     (regex_params "{pos:NNP}" false false) (Some "Alice ran.")]) /\
  (exists r self' m',
     tregrex "Alice ran." "NP" false healthy client boot = Some (r, self', m') /\
     trace m' = [GET "http://localhost:9000/tregex"
                     (regex_params "NP" false false) (Some "Alice ran.")]).
Proof.
  split; eexists _, _, _; split; vm_compute; reflexivity.
Qed.

(** * More of the module *)

(** ** The shape of a run of [ensure_alive] *)

Lemma ping_endpoint (a b : RobustService) :
  endpoint a = endpoint b -> ping a = ping b.
Proof. unfold ping. intros ->. reflexivity. Qed.

Lemma rounds_endpoint (a b : RobustService) (k : nat) :
  endpoint a = endpoint b -> rounds a k = rounds b k.
Proof.
  intros He. induction k as [| k IH]; cbn; [reflexivity |].
  rewrite IH, (ping_endpoint a b He). reflexivity.
Qed.

Lemma after_spawn_facts (self : RobustService) (m : Machine) :
  let '(self1, m1) := after_spawn self m in
  start_cmd self1 = start_cmd self /\ stop_cmd self1 = stop_cmd self /\
  endpoint self1 = endpoint self /\ is_active self1 = is_active self /\
  server self1 =
    match spawn_argv self with Some _ => Some (spawned m) | None => server self end /\
  sent m1 = sent m /\ ticks m1 = ticks m /\ ran m1 = ran m /\
  heap m1 = heap m /\
  trace m1 = (trace m ++ spawn_events self)%list.
Proof.
  unfold after_spawn, spawn_events. destruct (spawn_argv self); cbn;
    rewrite ?app_nil_r; repeat split; reflexivity.
Qed.

Lemma recover_after_spawn (fuel : nat) (w : World) (self : RobustService)
    (m : Machine) :
  recover fuel w self m =
    let '(self1, m1) := after_spawn self m in
    match wait_loop fuel (wall w (ticks m1)) w self1 (after_tick m1) with
    | None => None
    | Some (Ok _, self2, m2) => Some (Ok None, set_active true self2, m2)
    | Some (Raise e, self2, m2) => Some (Raise e, self2, m2)
    end.
Proof.
  rewrite recover_eq. unfold after_spawn, spawn_argv.
  destruct (server self); [| destruct (configured (start_cmd self))]; reflexivity.
Qed.

(** Any completed run of the loop: some rounds of probe and sleep, then a
    last probe. *)
Lemma wait_loop_shape (w : World) (self : RobustService) (start_time : Q)
    (fuel : nat) :
  forall (m : Machine) (r : result unit) (self' : RobustService) (m' : Machine),
    wait_loop fuel start_time w self m = Some (r, self', m') ->
    exists k,
      (k < fuel)%nat /\
      trace m' = (trace m ++ rounds self k ++ [ping self])%list /\
      sent m' = (sent m + S k)%nat /\
      ran m' = ran m /\ spawned m' = spawned m /\
      (r = Ok tt \/
       r = Raise (PermanentlyFailedException
                    "Timed out waiting for service to come alive.") \/
       r = Raise RequestException).
Proof.
  induction fuel as [| fuel IH]; intros m r self' m' Hrun; [discriminate |].
  rewrite wait_loop_step in Hrun; cbn zeta in Hrun.
  assert (Hlast : forall r0 m0,
             trace m0 = (trace m ++ [ping self])%list -> sent m0 = S (sent m) ->
             ran m0 = ran m -> spawned m0 = spawned m ->
             (r0 = Ok tt \/
              r0 = Raise (PermanentlyFailedException
                            "Timed out waiting for service to come alive.") \/
              r0 = Raise RequestException) ->
             Some (r0, self, m0) = Some (r, self', m') ->
             exists k,
               (k < S fuel)%nat /\
               trace m' = (trace m ++ rounds self k ++ [ping self])%list /\
               sent m' = (sent m + S k)%nat /\
               ran m' = ran m /\ spawned m' = spawned m /\
               (r = Ok tt \/
                r = Raise (PermanentlyFailedException
                             "Timed out waiting for service to come alive.") \/
                r = Raise RequestException)).
  { intros r0 m0 Ht Hs Hr Hp Hres Heq. inversion Heq; subst.
    exists 0%nat. cbn [rounds app]. repeat split; auto; lia. }
  assert (Hagain :
            (if Qltb (wall w (ticks m) - start_time) TIMEOUT
             then wait_loop fuel start_time w self
                    (log (Sleep 1) (after_tick (after_call (ping self) m)))
             else Some (Raise (PermanentlyFailedException
                                 "Timed out waiting for service to come alive."),
                        self, after_tick (after_call (ping self) m)))
            = Some (r, self', m') ->
            exists k,
              (k < S fuel)%nat /\
              trace m' = (trace m ++ rounds self k ++ [ping self])%list /\
              sent m' = (sent m + S k)%nat /\
              ran m' = ran m /\ spawned m' = spawned m /\
              (r = Ok tt \/
               r = Raise (PermanentlyFailedException
                            "Timed out waiting for service to come alive.") \/
               r = Raise RequestException)).
  { destruct (Qltb _ _).
    - intros Hrec. apply IH in Hrec.
      destruct Hrec as (k & Hk & Ht & Hs & Hr & Hp & Hres).
      cbn [trace sent ran spawned log after_tick after_call] in Ht, Hs, Hr, Hp.
      exists (S k). repeat split; auto; try lia.
      rewrite Ht. cbn [rounds]. rewrite <- !app_assoc. reflexivity.
    - apply Hlast; cbn; auto. }
  destruct (probe (net w (sent m))) as [[|] | e] eqn:P.
  - eapply Hlast; [| | | | | exact Hrun]; cbn; auto.
  - apply Hagain. exact Hrun.
  - unfold probe in P. destruct (net w (sent m)); try discriminate;
      inversion P; subst.
    + apply Hagain. exact Hrun.
    + eapply Hlast; [| | | | | exact Hrun]; cbn; auto.
Qed.

(** Any completed run of the recovery: the start command if there is no
    handle, then the loop. *)
Lemma recover_shape (fuel : nat) (w : World) (self : RobustService)
    (m : Machine) (r : result (option bool)) (self' : RobustService)
    (m' : Machine) :
  recover fuel w self m = Some (r, self', m') ->
  exists k,
    (k < fuel)%nat /\
    trace m' = (trace m ++ spawn_events self ++ rounds self k ++ [ping self])%list /\
    sent m' = (sent m + S k)%nat /\
    ran m' = ran m /\
    start_cmd self' = start_cmd self /\ stop_cmd self' = stop_cmd self /\
    endpoint self' = endpoint self /\
    server self' =
      match spawn_argv self with Some _ => Some (spawned m) | None => server self end /\
    (r = Ok None /\ is_active self' = true \/
     (r = Raise (PermanentlyFailedException
                   "Timed out waiting for service to come alive.") \/
      r = Raise RequestException) /\ is_active self' = is_active self).
Proof.
  rewrite recover_after_spawn. pose proof (after_spawn_facts self m) as Hfacts.
  destruct (after_spawn self m) as [self1 m1].
  destruct Hfacts as (Hsc & Hst & He & Ha & Hsv & Hs & Ht & Hr & Hh & Htr).
  destruct (wait_loop fuel (wall w (ticks m1)) w self1 (after_tick m1))
    as [[[[u | e] self2] m2] |] eqn:Hrun; [| | discriminate];
    intros Hres; inversion Hres; subst;
    pose proof (wait_loop_absorbs _ _ _ _ _ _ _ _ Hrun) as [_ ->];
    apply wait_loop_shape in Hrun;
    destruct Hrun as (k & Hk & Htrace & Hsent & Hran & _ & Hcases);
    cbn [trace sent ran after_tick] in Htrace, Hsent, Hran;
    exists k; rewrite Htrace, Htr, <- !app_assoc,
      (rounds_endpoint _ _ k He), (ping_endpoint _ _ He);
    cbn [start_cmd stop_cmd endpoint server is_active set_active];
    (split; [exact Hk |]); (split; [reflexivity |]);
    (split; [lia |]); (split; [congruence |]);
    (split; [exact Hsc |]); (split; [exact Hst |]); (split; [exact He |]);
    (split; [exact Hsv |]).
  - left. split; reflexivity.
  - right. split; [| exact Ha].
    destruct Hcases as [Hc | Hc]; [discriminate |].
    destruct Hc as [Hc | Hc]; inversion Hc; auto.
Qed.

(** What a run of [ensure_alive] may add to the trace. *)
Lemma ensure_alive_shape (fuel : nat) (w : World) (self : RobustService)
    (m : Machine) (r : result (option bool)) (self' : RobustService)
    (m' : Machine) :
  ensure_alive fuel w self m = Some (r, self', m') ->
  exists (polls : list event),
    Forall (fun e => e = ping self \/ e = Sleep 1) polls /\
    (trace m' = (trace m ++ polls)%list \/
     trace m' = (trace m ++ (if is_active self then [ping self] else [])
                 ++ spawn_events self ++ polls)%list) /\
    ran m' = ran m /\ heap m' = heap m /\
    start_cmd self' = start_cmd self /\ stop_cmd self' = stop_cmd self /\
    endpoint self' = endpoint self /\
    (server self <> None -> server self' = server self).
Proof.
  assert (Hpolls : forall k,
            Forall (fun e => e = ping self \/ e = Sleep 1)
                   (rounds self k ++ [ping self])).
  { induction k as [| k IH]; cbn [rounds app].
    - constructor; [left; reflexivity | constructor].
    - constructor; [left; reflexivity |].
      constructor; [right; reflexivity | exact IH]. }
  assert (Hrec : forall m0,
            recover fuel w self m0 = Some (r, self', m') ->
            exists k,
              trace m' = (trace m0 ++ spawn_events self
                          ++ rounds self k ++ [ping self])%list /\
              ran m' = ran m0 /\ heap m' = heap m0 /\
              start_cmd self' = start_cmd self /\ stop_cmd self' = stop_cmd self /\
              endpoint self' = endpoint self /\
              (server self <> None -> server self' = server self)).
  { intros m0 Hrun. pose proof (recover_effects _ _ _ _ _ _ _ Hrun) as (_ & Hh & _).
    apply recover_shape in Hrun.
    destruct Hrun as (k & _ & Ht & _ & Hr & Hsc & Hst & He & Hsv & _).
    exists k. repeat split; auto.
    intros Hsome. rewrite Hsv. unfold spawn_argv.
    destruct (server self); [reflexivity | contradiction]. }
  rewrite ensure_alive_eq. destruct (is_active self).
  - destruct (probe (net w (sent m))) as [b | e] eqn:P.
    + intros H; inversion H; subst. exists [ping self'].
      split; [constructor; [left; reflexivity | constructor] |]. cbn. auto 10.
    + unfold probe in P. destruct (net w (sent m)); try discriminate;
        inversion P; subst.
      * intros Hrun. apply Hrec in Hrun.
        destruct Hrun as (k & Ht & Hr & Hh & Hrest).
        cbn [trace ran heap after_call] in Ht, Hr, Hh.
        exists (rounds self k ++ [ping self])%list.
        split; [apply Hpolls |]. split; [right |].
        -- rewrite Ht, <- !app_assoc. reflexivity.
        -- repeat split; try tauto; assumption.
      * intros H; inversion H; subst. exists [ping self'].
        split; [constructor; [left; reflexivity | constructor] |]. cbn. auto 10.
  - intros Hrun. apply Hrec in Hrun.
    destruct Hrun as (k & Ht & Hr & Hh & Hrest).
    exists (rounds self k ++ [ping self])%list.
    split; [apply Hpolls |]. split; [right; exact Ht |].
    repeat split; try tauto; assumption.
Qed.

(** X1: [ensure_alive] sends GETs to [/ping], sleeps one second and starts
    at most the configured command; it never posts, kills or runs a
    command, and leaves the heap and the commands and endpoint of the
    service as they were. *)
Theorem ensure_alive_only_probes_and_starts (fuel : nat) (w : World)
    (self : RobustService) (m : Machine) (r : result (option bool))
    (self' : RobustService) (m' : Machine) :
  ensure_alive fuel w self m = Some (r, self', m') ->
  exists added,
    trace m' = (trace m ++ added)%list /\
    Forall (fun e => e = GET (endpoint self ++ "/ping") [] None \/
                     e = Sleep 1 \/
                     exists argv, server self = None /\
                                  configured (start_cmd self) = Some argv /\
                                  e = Popen argv) added /\
    ran m' = ran m /\ heap m' = heap m /\
    start_cmd self' = start_cmd self /\ stop_cmd self' = stop_cmd self /\
    endpoint self' = endpoint self.
Proof.
  intros Hrun. apply ensure_alive_shape in Hrun.
  destruct Hrun as (polls & Hpolls & Htrace & Hr & Hh & Hsc & Hst & He & _).
  assert (Hweak : Forall (fun e => e = GET (endpoint self ++ "/ping") [] None \/
                                   e = Sleep 1 \/
                                   exists argv, server self = None /\
                                     configured (start_cmd self) = Some argv /\
                                     e = Popen argv) polls).
  { eapply List.Forall_impl; [| exact Hpolls]. cbn. intros e [-> | ->]; auto. }
  destruct Htrace as [Ht | Ht].
  - exists polls. auto 10.
  - eexists. split; [exact Ht |]. split; [| auto 10].
    apply Forall_app. split.
    + destruct (is_active self); [| constructor].
      constructor; [left; reflexivity | constructor].
    + apply Forall_app. split; [| exact Hweak].
      unfold spawn_events, spawn_argv.
      destruct (server self); [constructor |].
      destruct (configured (start_cmd self)) as [argv |]; [| constructor].
      constructor; [| constructor].
      right. right. exists argv. auto.
Qed.

Lemma ensure_alive_only_probes_and_starts_witness :
  exists r self' m' added,
    ensure_alive 4 slow_start managed boot = Some (r, self', m') /\
    trace m' = (trace boot ++ added)%list /\
    Forall (fun e => e = GET (endpoint managed ++ "/ping") [] None \/
                     e = Sleep 1 \/
                     exists argv, server managed = None /\
                                  configured (start_cmd managed) = Some argv /\
                                  e = Popen argv) added.
Proof.
  assert (Hrun : { x | ensure_alive 4 slow_start managed boot = Some x }).
  { eexists. vm_compute. reflexivity. }
  destruct Hrun as [[[r self'] m'] Hrun].
  destruct (ensure_alive_only_probes_and_starts 4 slow_start managed boot
              r self' m' Hrun) as (added & Htrace & Hadded & _).
  exists r, self', m', added. split; [exact Hrun |]. split; assumption.
Defined.

(** ** Waiting, in full *)











(** ** How long [ensure_alive] can take *)

(** With a clock that advances at least one second from reading to
    reading, a loop that starts [16 - fuel] seconds into the window ends
    within its fuel. *)
Lemma wait_loop_bounded (w : World) (self : RobustService) (start_time : Q)
    (fuel : nat) :
  (forall n, (wall w n + 1 <= wall w (S n))%Q) ->
  forall m,
    (1 <= fuel)%nat ->
    (inject_Z 16 - inject_Z (Z.of_nat fuel) <= wall w (ticks m) - start_time)%Q ->
    exists r m', wait_loop fuel start_time w self m = Some (r, self, m').
Proof.
  intros Hclock. induction fuel as [| fuel IH]; intros m Hfuel Hnow; [lia |].
  rewrite wait_loop_step; cbn zeta.
  assert (Hagain :
            exists r m',
              (if Qltb (wall w (ticks m) - start_time) TIMEOUT
               then wait_loop fuel start_time w self
                      (log (Sleep 1) (after_tick (after_call (ping self) m)))
               else Some (Raise (PermanentlyFailedException
                                   "Timed out waiting for service to come alive."),
                          self, after_tick (after_call (ping self) m)))
              = Some (r, self, m')).
  { destruct (Qltb _ _) eqn:Hin; [| eexists _, _; reflexivity].
    apply Qltb_lt in Hin. unfold TIMEOUT in Hin.
    rewrite Nat2Z.inj_succ, <- Z.add_1_r, inject_Z_plus in Hnow.
    change (inject_Z 16) with (16 # 1)%Q in Hnow.
    change (inject_Z 1) with (1 # 1)%Q in Hnow.
    destruct fuel as [| fuel'].
    - exfalso. change (inject_Z (Z.of_nat 0)) with (0 # 1)%Q in Hnow. lra.
    - apply IH; [lia |]. cbn [ticks log after_tick after_call].
      change (inject_Z 16) with (16 # 1)%Q.
      pose proof (Hclock (ticks m)). lra. }
  destruct (probe (net w (sent m))) as [[|] | []]; try exact Hagain;
    eexists _, _; reflexivity.
Qed.

(** X5: if the clock advances at least one second from one reading to the
    next (each round of the loop sleeps one second), [ensure_alive]
    completes within 15 rounds whatever the network answers, having sent at
    most 16 probes. *)
Theorem ensure_alive_ends_within_window (w : World) (self : RobustService)
    (m : Machine) :
  (forall n, (wall w n + 1 <= wall w (S n))%Q) ->
  exists r self' m',
    ensure_alive 15 w self m = Some (r, self', m') /\
    (sent m' <= sent m + 16)%nat.
Proof.
  intros Hclock.
  assert (Hrec : forall m0,
            exists r self' m', recover 15 w self m0 = Some (r, self', m') /\
                               (sent m' <= sent m0 + 15)%nat).
  { intros m0.
    assert (Hdone : exists r self' m', recover 15 w self m0 = Some (r, self', m')).
    { rewrite recover_after_spawn.
      pose proof (after_spawn_facts self m0) as Hfacts.
      destruct (after_spawn self m0) as [self1 m1].
      destruct Hfacts as (_ & _ & _ & _ & _ & _ & Ht & _).
      destruct (wait_loop_bounded w self1 (wall w (ticks m1)) 15 Hclock
                  (after_tick m1)) as (r & m' & Hrun).
      - lia.
      - cbn [ticks after_tick].
        change (inject_Z 16 - inject_Z (Z.of_nat 15))%Q with ((16 # 1) - (15 # 1))%Q.
        pose proof (Hclock (ticks m1)). lra.
      - rewrite Hrun. destruct r; eexists _, _, _; reflexivity. }
    destruct Hdone as (r & self' & m' & Hrun). exists r, self', m'.
    split; [exact Hrun |]. apply recover_shape in Hrun.
    destruct Hrun as (k & Hk & _ & Hsent & _). lia. }
  rewrite ensure_alive_eq. destruct (is_active self).
  - destruct (probe (net w (sent m))) as [b | []];
      try (eexists _, _, _; split; [reflexivity | cbn; lia]).
    destruct (Hrec (after_call (ping self) m)) as (r & self' & m' & Hrun & Hsent).
    exists r, self', m'. split; [exact Hrun |]. cbn [sent after_call] in Hsent. lia.
  - destruct (Hrec m) as (r & self' & m' & Hrun & Hsent).
    exists r, self', m'. split; [exact Hrun | lia].
Qed.

Lemma seconds_advance (n : nat) : (seconds n + 1 <= seconds (S n))%Q.
Proof.
  unfold seconds. rewrite Nat2Z.inj_succ, <- Z.add_1_r, inject_Z_plus.
  change (inject_Z 1) with (1 # 1)%Q. lra.
Qed.

Lemma ensure_alive_ends_within_window_witness :
  exists r self' m',
    ensure_alive 15 down managed boot = Some (r, self', m') /\
    (sent m' <= sent boot + 16)%nat.
Proof.
  apply (ensure_alive_ends_within_window down managed boot).
  intros n. apply seconds_advance.
Defined.

(** ** [start] and [stop] together *)

Lemma start_eq (w : World) (self : RobustService) (m : Machine) :
  start w self m =
    match configured (start_cmd self) with
    | Some argv =>
        Some (Ok tt,
              mkService (start_cmd self) (stop_cmd self) (endpoint self)
                        (Some (spawned m)) (is_active self),
              mkMachine (sent m) (ticks m) (ran m) (S (spawned m))
                        (trace m ++ [Popen argv]) (heap m))
    | None => Some (Ok tt, self, m)
    end.
Proof. run. destruct (configured (start_cmd self)); reflexivity. Qed.

(** X6: [start] does not look at the handle it has.  Called twice it
    starts the command twice and keeps the second handle only, so a
    following [stop] kills the second child and never the first. *)
Theorem start_twice_leaks_first_child (w : World) (self : RobustService)
    (m : Machine) (argv : list string) :
  configured (start_cmd self) = Some argv ->
  configured (stop_cmd self) = None ->
  exists self' m',
    (start ;; start ;; stop) w self m = Some (Ok tt, self', m') /\
    trace m' = (trace m ++ [Popen argv; Popen argv; Kill (S (spawned m))])%list /\
    server self' = Some (S (spawned m)) /\
    ~ In (Kill (spawned m)) [Popen argv; Popen argv; Kill (S (spawned m))].
Proof.
  intros Hstart Hstop. unfold bind. rewrite start_eq, Hstart.
  rewrite start_eq. cbn [start_cmd]. rewrite Hstart.
  rewrite stop_eq. cbn [stop_cmd server]. rewrite Hstop. cbn zeta.
  eexists _, _. split; [reflexivity |]. cbn. rewrite <- !app_assoc.
  split; [reflexivity |]. split; [reflexivity |].
  intros [H | [H | [H | []]]]; try discriminate.
  inversion H. lia.
Qed.

Lemma start_twice_leaks_first_child_witness :
  exists self' m',
    (start ;; start ;; stop) healthy managed boot = Some (Ok tt, self', m') /\
    trace m' = [ Popen ["javanlp.sh"; "-port"; "9000"];
                 Popen ["javanlp.sh"; "-port"; "9000"]; Kill 1 ] /\
    server self' = Some 1%nat /\
    ~ In (Kill 0) [ Popen ["javanlp.sh"; "-port"; "9000"];
                    Popen ["javanlp.sh"; "-port"; "9000"]; Kill 1 ].
Proof.
  apply (start_twice_leaks_first_child healthy managed boot
           ["javanlp.sh"; "-port"; "9000"]); reflexivity.
Defined.

(** X7: [stop] keeps the handle of the child it killed, so [ensure_alive]
    after [stop] does not start the command again: it only probes and
    sleeps, and the handle is still the old one. *)
Theorem ensure_alive_after_stop_never_restarts (fuel : nat) (w : World)
    (self : RobustService) (m : Machine) (p : nat) (r : result (option bool))
    (self' : RobustService) (m' : Machine) :
  server self = Some p ->
  (stop ;; ensure_alive fuel) w self m = Some (r, self', m') ->
  exists polls,
    trace m' = (trace m ++ [Kill p]
                ++ match configured (stop_cmd self) with
                   | Some argv => [Run argv]
                   | None => []
                   end
                ++ polls)%list /\
    Forall (fun e => e = ping self \/ e = Sleep 1) polls /\
    server self' = Some p.
Proof.
  intros Hserver. unfold bind at 1. rewrite stop_eq, Hserver. cbn zeta.
  assert (Hgate : forall m1,
            ensure_alive fuel w (set_active false self) m1 = Some (r, self', m') ->
            exists polls,
              trace m' = (trace m1 ++ polls)%list /\
              Forall (fun e => e = ping self \/ e = Sleep 1) polls /\
              server self' = Some p).
  { intros m1 Hrun. apply ensure_alive_shape in Hrun.
    destruct Hrun as (polls & Hpolls & Htrace & _ & _ & _ & _ & _ & Hkeep).
    exists polls. split; [| split; [exact Hpolls |]].
    - destruct Htrace as [Ht | Ht]; [exact Ht |].
      rewrite Ht. unfold spawn_events, spawn_argv. cbn [is_active server set_active].
      rewrite Hserver. reflexivity.
    - cbn [server set_active] in Hkeep. rewrite Hkeep; [exact Hserver |].
      rewrite Hserver. discriminate. }
  destruct (configured (stop_cmd self)) as [argv |].
  - destruct (exit_status w (ran (log (Kill p) m)) =? 0).
    + intros Hrun. apply Hgate in Hrun. destruct Hrun as (polls & Ht & Hp & Hs).
      exists polls. cbn [trace log] in Ht. rewrite Ht, <- !app_assoc.
      split; [reflexivity | auto].
    + intros Hrun. inversion Hrun; subst. exists [].
      cbn [trace log]. rewrite <- !app_assoc. split; [reflexivity |].
      split; [constructor | exact Hserver].
  - intros Hrun. apply Hgate in Hrun. destruct Hrun as (polls & Ht & Hp & Hs).
    exists polls. cbn [trace log] in Ht. rewrite Ht, <- !app_assoc.
    split; [reflexivity | auto].
Qed.

Lemma ensure_alive_after_stop_never_restarts_witness :
  exists r self' m' polls,
    (stop ;; ensure_alive 15) down running boot = Some (r, self', m') /\
    trace m' = (trace boot ++ [Kill 0] ++ [] ++ polls)%list /\
    Forall (fun e => e = ping running \/ e = Sleep 1) polls /\
    server self' = Some 0%nat.
Proof.
  assert (Hrun : { x | (stop ;; ensure_alive 15) down running boot = Some x }).
  { eexists. vm_compute. reflexivity. }
  destruct Hrun as [[[r self'] m'] Hrun].
  destruct (ensure_alive_after_stop_never_restarts 15 down running boot 0
              r self' m' eq_refl Hrun) as (polls & Htrace & Hpolls & Hserver).
  exists r, self', m', polls. split; [exact Hrun |]. auto.
Defined.

(** ** Scoped use *)

(** X8: in a [with] block over a client that has no stop command, the
    block returns what its body returns and raises what its body raises;
    either way the child the client holds afterwards has been killed and
    the client is not active. *)
Theorem with_block_passes_outcome_on {A : Type} (body : M CoreNLPClient A)
    (w : World) (self self0 self1 : CoreNLPClient) (m m0 m1 : Machine)
    (v : RobustService) (r : result A) :
  super __enter__ w self m = Some (Ok v, self0, m0) ->
  body w self0 m0 = Some (r, self1, m1) ->
  configured (stop_cmd (base self1)) = None ->
  with_ body w self m =
    Some (r,
          mkClient (set_active false (base self1)) (default_annotators self1)
                   (default_properties self1),
          match server (base self1) with
          | Some p => log (Kill p) m1
          | None => m1
          end).
Proof.
  intros Henter Hbody Hstop. unfold with_. unfold bind at 1.
  rewrite Henter, Hbody.
  assert (Hexit : super __exit__ w self1 m1 =
                  Some (Ok tt,
                        mkClient (set_active false (base self1))
                                 (default_annotators self1)
                                 (default_properties self1),
                        match server (base self1) with
                        | Some p => log (Kill p) m1
                        | None => m1
                        end)).
  { unfold super, __exit__. rewrite stop_eq, Hstop. reflexivity. }
  destruct r as [a | e]; unfold bind; rewrite Hexit; reflexivity.
Qed.

Lemma with_block_passes_outcome_on_witness :
  exists self' m',
    with_ (_request 1 "Alice ran." [("inputFormat", PStr "xml")]) healthy
          (mkClient managed [] 0%nat) boot =
      Some (Raise (ValueError "Unrecognized inputFormat xml"), self', m') /\
    is_active (base self') = false /\
    trace m' = [ Popen ["javanlp.sh"; "-port"; "9000"];
                 GET "http://localhost:9000/ping" [] None;
                 Kill 0 ].
Proof.
  eexists _, _. split.
  - eapply (with_block_passes_outcome_on
              (_request 1 "Alice ran." [("inputFormat", PStr "xml")]) healthy
              (mkClient managed [] 0%nat)); reflexivity.
  - split; reflexivity.
Defined.

(** ** Which sentences the flattening reads *)

Lemma sentence_words_skipped (keep : nat -> bool) (i : nat) (s : sentence) :
  keep i = false -> sentence_words keep i s = Ok [].
Proof.
  intros Hskip. induction s as [| [k v] s IH]; cbn; [reflexivity |].
  rewrite Hskip, andb_false_r. exact IH.
Qed.

Lemma sentence_words_kept (keep : nat -> bool) (i : nat) (s : sentence) :
  keep i = true -> sentence_words keep i s = sentence_words (fun _ => true) i s.
Proof.
  intros Hkeep. induction s as [| [k v] s IH]; cbn; [reflexivity |].
  rewrite Hkeep, IH. reflexivity.
Qed.

Lemma indexed_words_none (keep : nat -> bool) (ss : list sentence) :
  forall i, (forall j, (i <= j)%nat -> keep j = false) ->
            indexed_words keep i ss = Ok [].
Proof.
  induction ss as [| s ss IH]; intros i Hskip; cbn; [reflexivity |].
  rewrite sentence_words_skipped by (apply Hskip; lia).
  rewrite IH by (intros j Hj; apply Hskip; lia). reflexivity.
Qed.

Lemma indexed_words_one (n : nat) (ss : list sentence) :
  forall i,
    (i <= n)%nat ->
    indexed_words (fun j => Z.of_nat j =? Z.of_nat n) i ss =
      match List.nth_error ss (n - i) with
      | Some s => sentence_words (fun _ => true) n s
      | None => Ok []
      end.
Proof.
  induction ss as [| s ss IH]; intros i Hi; cbn [indexed_words].
  - destruct (n - i)%nat; reflexivity.
  - destruct (Nat.eq_dec i n) as [-> | Hne].
    + rewrite Nat.sub_diag. cbn [List.nth_error].
      rewrite sentence_words_kept by apply Z.eqb_refl.
      rewrite indexed_words_none.
      * destruct (sentence_words _ n s); [rewrite app_nil_r |]; reflexivity.
      * intros j Hj. apply Z.eqb_neq. lia.
    + rewrite sentence_words_skipped by (apply Z.eqb_neq; lia).
      rewrite IH by lia. replace (n - i)%nat with (S (n - S i)) by lia.
      cbn [List.nth_error].
      destruct (List.nth_error ss (n - S i)) as [s' |]; [| reflexivity].
      destruct (sentence_words _ n s'); reflexivity.
Qed.

(** X9: for a sentence index [n] other than 0 that exists, the result is
    exactly what the words of sentence [n] alone give: the other sentences
    are not read, so no malformed entry of theirs can make the call fail. *)
Theorem flatten_reads_only_that_sentence (matches : Matches) (n : nat)
    (s : sentence) :
  n <> 0%nat ->
  List.nth_error (sentences matches) n = Some s ->
  semgrex_matches_to_indexed_words matches (Some (Z.of_nat n)) =
    sentence_words (fun _ => true) n s.
Proof.
  intros Hn Hs. unfold semgrex_matches_to_indexed_words.
  assert (Hz : (Z.of_nat n =? 0) = false) by (apply Z.eqb_neq; lia).
  rewrite Hz. cbn [negb].
  rewrite indexed_words_one by lia. rewrite Nat.sub_0_r, Hs. reflexivity.
Qed.

Lemma flatten_reads_only_that_sentence_witness :
  semgrex_matches_to_indexed_words
    (mkMatches [ [("0", Num 7)]; [("length", Num 1); ("0", Obj [("word", PStr "ran")])] ])
    (Some 1) =
  Ok [ [("word", PStr "ran"); ("sent_index", PInt 1)] ].
Proof.
  apply (flatten_reads_only_that_sentence
           (mkMatches [ [("0", Num 7)];
                        [("length", Num 1); ("0", Obj [("word", PStr "ran")])] ])
           1 [("length", Num 1); ("0", Obj [("word", PStr "ran")])]).
  - discriminate.
  - reflexivity.
Defined.

(** X10: a sentence index that is negative or past the last sentence gives
    the empty list, not an error. *)
Theorem flatten_out_of_range_is_empty (matches : Matches) (n : Z) :
  n < 0 \/ Z.of_nat (length (sentences matches)) <= n ->
  semgrex_matches_to_indexed_words matches (Some n) = Ok [].
Proof.
  intros Hout. unfold semgrex_matches_to_indexed_words.
  destruct (n =? 0) eqn:Hz; cbn [negb].
  - apply Z.eqb_eq in Hz. subst n. destruct Hout as [Hneg | Hlen]; [lia |].
    destruct (sentences matches); [reflexivity | cbn in Hlen; lia].
  - destruct Hout as [Hneg | Hlen].
    + apply indexed_words_none. intros j _. apply Z.eqb_neq. lia.
    + replace n with (Z.of_nat (Z.to_nat n)) by lia.
      rewrite indexed_words_one by lia. rewrite Nat.sub_0_r.
      assert (Hnone : List.nth_error (sentences matches) (Z.to_nat n) = None)
        by (apply List.nth_error_None; lia).
      rewrite Hnone. reflexivity.
Qed.

Lemma flatten_out_of_range_is_empty_witness :
  semgrex_matches_to_indexed_words alice_ran (Some 2) = Ok [] /\
  semgrex_matches_to_indexed_words alice_ran (Some (-1)) = Ok [].
Proof.
  split.
  - apply (flatten_out_of_range_is_empty alice_ran 2). right. cbn. lia.
  - apply (flatten_out_of_range_is_empty alice_ran (-1)). left. lia.
Defined.

(** ** When the flattening fails *)

Lemma sentence_words_outcome (i : nat) (s : sentence) :
  if existsb (fun kv => is_Num (snd kv)) (word_entries s)
  then sentence_words (fun _ => true) i s = Raise TypeError
  else exists words,
         sentence_words (fun _ => true) i s = Ok words /\
         length words = length (word_entries s).
Proof.
  induction s as [| [k v] s IH]; cbn [word_entries List.filter fst].
  - cbn. eexists. split; reflexivity.
  - cbn [sentence_words]. fold (word_entries s).
    destruct (negb (String.eqb k "length")); cbn [andb existsb snd].
    + destruct v as [n | d]; cbn [is_Num orb with_sent_index]; [reflexivity |].
      destruct (existsb _ (word_entries s)).
      * rewrite IH. reflexivity.
      * destruct IH as (words & -> & Hlen). eexists. split; [reflexivity |].
        cbn. rewrite Hlen. reflexivity.
    + exact IH.
Qed.

(** X11: without a sentence filter, the call raises [TypeError] exactly
    when some sentence has, under a key other than [length], a number
    instead of a word record; otherwise it returns one record for each
    entry whose key is not [length]. *)
Theorem flatten_fails_on_number_entries (matches : Matches) :
  if existsb (fun s => existsb (fun kv => is_Num (snd kv)) (word_entries s))
             (sentences matches)
  then semgrex_matches_to_indexed_words matches None = Raise TypeError
  else exists words,
         semgrex_matches_to_indexed_words matches None = Ok words /\
         length words = length (List.concat (map word_entries (sentences matches))).
Proof.
  unfold semgrex_matches_to_indexed_words. generalize 0%nat.
  induction (sentences matches) as [| s ss IH]; intros i; cbn [existsb].
  - eexists. split; reflexivity.
  - cbn [indexed_words map List.concat].
    pose proof (sentence_words_outcome i s) as Hs.
    destruct (existsb _ (word_entries s)); cbn [orb].
    + rewrite Hs. reflexivity.
    + destruct Hs as (words & -> & Hlen). specialize (IH (S i)).
      destruct (existsb _ ss).
      * rewrite IH. reflexivity.
      * destruct IH as (rest & -> & Hrest). eexists. split; [reflexivity |].
        rewrite !length_app, Hlen, Hrest. reflexivity.
Qed.

(** ** What [_request] raises *)




(** ** [annotate] and [update], end to end *)

Lemma verdict_passes (r : Response) :
  ~ (400 <= status_code r < 600) -> verdict r = Ok r.
Proof.
  intros Hstatus. unfold verdict.
  destruct (400 <=? status_code r) eqn:Hlo; destruct (status_code r <? 600) eqn:Hhi;
    cbn; try reflexivity.
  apply Z.leb_le in Hlo. apply Z.ltb_lt in Hhi. lia.
Qed.

Lemma content_type_after_update (d : dict) (annotators : list string) :
  content_type_for (dict_update d (request_properties annotators "text")) =
    Ok "text/plain; charset=utf-8" /\
  content_type_for (dict_update d (request_properties annotators "serialized")) =
    Ok "application/x-protobuf".
Proof.
  unfold content_type_for.
  destruct (dict_update_request_properties d annotators "text")
    as (_ & Htext & _).
  destruct (dict_update_request_properties d annotators "serialized")
    as (_ & Hser & _).
  cbn zeta in Htext, Hser. rewrite Htext, Hser. split; reflexivity.
Qed.

Section EndToEnd.

Context {Document : Type} `{Libraries Document}.

Lemma annotate_explicit_eq (fuel : nat) (text : string)
    (annotators : option (list string)) (properties : dict) (w : World)
    (self : CoreNLPClient) (m : Machine) :
  annotate fuel text annotators (Some properties) w self m =
    match _request fuel text properties w self m with
    | None => None
    | Some (Raise e, self', m') => Some (Raise e, self', m')
    | Some (Ok r, self', m') =>
        Some (parseFromDelimitedString (content r), self', m')
    end.
Proof.
  unfold annotate. run.
  destruct (_request _ _ _ _ _ _) as [[[[r | e] self'] m'] |]; reflexivity.
Qed.

Lemma update_explicit_eq (fuel : nat) (doc : Document)
    (annotators : option (list string)) (properties : dict) (w : World)
    (self : CoreNLPClient) (m : Machine) :
  update fuel doc annotators (Some properties) w self m =
    match _request fuel (writeToDelimitedString doc) properties w self m with
    | None => None
    | Some (Raise e, self', m') => Some (Raise e, self', m')
    | Some (Ok r, self', m') =>
        Some (parseFromDelimitedString (content r), self', m')
    end.
Proof.
  unfold update. run.
  destruct (_request _ _ _ _ _ _) as [[[[r | e] self'] m'] |]; reflexivity.
Qed.

(** X13: [annotate] without properties, when the service is ready and
    answers with a status outside 400..599: whatever the defaults held
    before (an [inputFormat] of their own included), one POST goes to the
    endpoint with the updated defaults as properties, the text as body and
    [text/plain; charset=utf-8] as content type, and the result is the
    document parsed from the response's content. *)
Theorem annotate_posts_text (fuel : nat) (text : string)
    (annotators : option (list string)) (w : World) (self self1 : CoreNLPClient)
    (m m1 : Machine) (v : option bool) (r : Response) :
  let l := default_properties self in
  let d := dict_update (deref m l)
             (request_properties
                (annotators_or annotators (default_annotators self)) "text") in
  super (ensure_alive fuel) w self (store l d m) = Some (Ok v, self1, m1) ->
  net w (sent m1) = Answered r ->
  ~ (400 <= status_code r < 600) ->
  annotate fuel text annotators None w self m =
    Some (parseFromDelimitedString (content r), self1,
          after_call (POST (endpoint (base self)) d text
                           "text/plain; charset=utf-8") m1).
Proof.
  intros l d Hgate Hnet Hstatus. rewrite annotate_eq. cbn zeta. fold l. fold d.
  rewrite _request_eq, Hgate.
  destruct (content_type_after_update (deref m l)
              (annotators_or annotators (default_annotators self))) as [Hct _].
  fold d in Hct. rewrite Hct, Hnet. cbn zeta.
  rewrite (verdict_passes r Hstatus).
  apply gate_effects in Hgate. destruct Hgate as (He & _). rewrite He.
  reflexivity.
Qed.

(** X14: [update] without properties, under the same conditions: the POST
    carries the serialised document as body and [application/x-protobuf]
    as content type, and the defaults' [inputFormat] is now
    ["serialized"]. *)
Theorem update_posts_protobuf (fuel : nat) (doc : Document)
    (annotators : option (list string)) (w : World) (self self1 : CoreNLPClient)
    (m m1 : Machine) (v : option bool) (r : Response) :
  let l := default_properties self in
  let d := dict_update (deref m l)
             (request_properties
                (annotators_or annotators (default_annotators self))
                "serialized") in
  super (ensure_alive fuel) w self (store l d m) = Some (Ok v, self1, m1) ->
  net w (sent m1) = Answered r ->
  ~ (400 <= status_code r < 600) ->
  update fuel doc annotators None w self m =
    Some (parseFromDelimitedString (content r), self1,
          after_call (POST (endpoint (base self)) d (writeToDelimitedString doc)
                           "application/x-protobuf") m1) /\
  dict_get d "inputFormat" = Some (PStr "serialized").
Proof.
  intros l d Hgate Hnet Hstatus. split.
  - rewrite update_eq. cbn zeta. fold l. fold d.
    rewrite _request_eq, Hgate.
    destruct (content_type_after_update (deref m l)
                (annotators_or annotators (default_annotators self))) as [_ Hct].
    fold d in Hct. rewrite Hct, Hnet. cbn zeta.
    rewrite (verdict_passes r Hstatus).
    apply gate_effects in Hgate. destruct Hgate as (He & _). rewrite He.
    reflexivity.
  - apply dict_update_request_properties.
Qed.

(** X15: with properties passed in, the content type follows those
    properties and not the method: [update] sends its serialised document
    as [text/plain] when they name no [inputFormat].  The properties go
    out as given and the shared defaults are not touched. *)
Theorem explicit_properties_choose_content_type (fuel : nat) (text : string)
    (doc : Document) (annotators : option (list string)) (properties : dict)
    (ctype : string) (w : World) (self self1 : CoreNLPClient) (m m1 : Machine)
    (v : option bool) :
  super (ensure_alive fuel) w self m = Some (Ok v, self1, m1) ->
  content_type_for properties = Ok ctype ->
  (exists r,
     annotate fuel text annotators (Some properties) w self m =
       Some (r, self1,
             after_call (POST (endpoint (base self)) properties text ctype) m1)) /\
  (exists r,
     update fuel doc annotators (Some properties) w self m =
       Some (r, self1,
             after_call (POST (endpoint (base self)) properties
                              (writeToDelimitedString doc) ctype) m1)) /\
  heap m1 = heap m /\
  (dict_get properties "inputFormat" = None ->
   ctype = "text/plain; charset=utf-8").
Proof.
  intros Hgate Hct.
  pose proof (gate_effects _ _ _ _ _ _ _ Hgate) as (He & _ & Hh & _).
  split_and!.
  - rewrite annotate_explicit_eq, _request_eq, Hgate, Hct. cbn zeta. rewrite He.
    destruct (net w (sent m1)) as [r | |];
      [destruct (verdict r) |..]; eexists; reflexivity.
  - rewrite update_explicit_eq, _request_eq, Hgate, Hct. cbn zeta. rewrite He.
    destruct (net w (sent m1)) as [r | |];
      [destruct (verdict r) |..]; eexists; reflexivity.
  - exact Hh.
  - intros Hnone. unfold content_type_for in Hct. rewrite Hnone in Hct.
    cbn in Hct. inversion Hct. reflexivity.
Qed.

End EndToEnd.

Lemma annotate_posts_text_witness :
  exists self1 m1,
    annotate 1 "Alice ran." (Some ["tokenize"]) None healthy client
             (store 0%nat [("inputFormat", PStr "xml")] boot) =
      Some (Ok "pong", self1,
            after_call
              (POST "http://localhost:9000"
                    [ ("inputFormat", PStr "text");
                      ("annotators", PStr "tokenize");
                      ("outputFormat", PStr "serialized");
                      ("serializer", PStr SERIALIZER) ]
                    "Alice ran." "text/plain; charset=utf-8") m1).
Proof.
  assert (Hgate : { x | super (ensure_alive 1) healthy client
                          (store 0%nat
                             [ ("inputFormat", PStr "text");
                               ("annotators", PStr "tokenize");
                               ("outputFormat", PStr "serialized");
                               ("serializer", PStr SERIALIZER) ]
                             (store 0%nat [("inputFormat", PStr "xml")] boot)) =
                        Some (Ok None, fst x, snd x) }).
  { eexists (_, _). vm_compute. reflexivity. }
  destruct Hgate as [[self1 m1] Hgate]. cbn [fst snd] in Hgate.
  exists self1, m1.
  refine (annotate_posts_text 1 "Alice ran." (Some ["tokenize"]) healthy client
            self1 (store 0%nat [("inputFormat", PStr "xml")] boot) m1 None
            (mkResponse 200 "pong" "pong") Hgate eq_refl _).
  cbn. lia.
Defined.

Lemma update_posts_protobuf_witness :
  exists self1 m1,
    update 1 "<doc>" None None healthy client boot =
      Some (Ok "pong", self1,
            after_call
              (POST "http://localhost:9000"
                    [ ("annotators", PStr "tokenize,ssplit,lemma,pos,ner,depparse");
                      ("inputFormat", PStr "serialized");
                      ("outputFormat", PStr "serialized");
                      ("serializer", PStr SERIALIZER) ]
                    "<doc>" "application/x-protobuf") m1).
Proof.
  assert (Hgate : { x | super (ensure_alive 1) healthy client
                          (store 0%nat
                             [ ("annotators",
                                PStr "tokenize,ssplit,lemma,pos,ner,depparse");
                               ("inputFormat", PStr "serialized");
                               ("outputFormat", PStr "serialized");
                               ("serializer", PStr SERIALIZER) ]
                             boot) =
                        Some (Ok None, fst x, snd x) }).
  { eexists (_, _). vm_compute. reflexivity. }
  destruct Hgate as [[self1 m1] Hgate]. cbn [fst snd] in Hgate.
  exists self1, m1.
  refine (proj1 (update_posts_protobuf 1 "<doc>" None healthy client
                   self1 boot m1 None (mkResponse 200 "pong" "pong")
                   Hgate eq_refl _)).
  cbn. lia.
Defined.

Lemma explicit_properties_choose_content_type_witness :
  exists r self1 m1,
    update 1 "<doc>" None (Some [("annotators", PStr "tokenize")]) healthy
           client boot =
      Some (r, self1,
            after_call
              (POST "http://localhost:9000" [("annotators", PStr "tokenize")]
                    "<doc>" "text/plain; charset=utf-8") m1).
Proof.
  assert (Hgate : { x | super (ensure_alive 1) healthy client boot =
                        Some (Ok None, fst x, snd x) }).
  { eexists (_, _). vm_compute. reflexivity. }
  destruct Hgate as [[self1 m1] Hgate]. cbn [fst snd] in Hgate.
  destruct (explicit_properties_choose_content_type 1 "Alice ran." "<doc>" None
              [("annotators", PStr "tokenize")] "text/plain; charset=utf-8"
              healthy client self1 boot m1 None Hgate eq_refl)
    as (_ & (r & Hrun) & _).
  exists r, self1, m1. exact Hrun.
Defined.

Lemma keys_persist_witness :
  exists r self' m',
    annotate 1 "Alice ran." None None healthy client tuned = Some (r, self', m') /\
    dict_get (deref m' 0%nat) "ssplit.isOneSentence" <> None.
Proof.
  assert (Hrun : { x | annotate 1 "Alice ran." None None healthy client tuned =
                       Some x }).
  { eexists. vm_compute. reflexivity. }
  destruct Hrun as [[[r self'] m'] Hrun].
  exists r, self', m'. split; [exact Hrun |].
  apply (keys_persist 1 "Alice ran." "" None None healthy client tuned r self' m'
           0%nat "ssplit.isOneSentence").
  - left. exact Hrun.
  - discriminate.
Defined.

(** ** Queries go straight to the server *)

Section Straight.

Context {Document : Type} `{Libraries Document}.

(** X16: the query methods do not pass the readiness gate.  When the
    connection is refused each of them raises [ConnectionError] at once,
    after its single GET: no probe, no sleep, no start of the server, and
    the client is left as it was. *)
Theorem queries_fail_fast (text pattern : string) (filter unique flatten : bool)
    (sent_index : option Z) (w : World) (self : CoreNLPClient) (m : Machine) :
  net w (sent m) = Refused ->
  let sends (path : string) (unique : bool) : Machine :=
    after_call (GET (endpoint (base self) ++ path)
                    (regex_params pattern filter unique) (Some text)) m in
  tokensregex text pattern filter flatten sent_index w self m =
    Some (Raise ConnectionError, self, sends "/semgrex" false) /\
  semgrex text pattern filter unique flatten sent_index w self m =
    Some (Raise ConnectionError, self, sends "/semgrex" unique) /\
  tregrex text pattern filter w self m =
    Some (Raise ConnectionError, self, sends "/tregex" false).
Proof.
  intros Hrefused sends. unfold tokensregex, semgrex, tregrex, bind.
  rewrite !__regex_eq, Hrefused. auto.
Qed.

(** X17: when the body of the answer is not JSON, a query returns it as
    text; asked to flatten, it raises [TypeError], for the text cannot be
    indexed with ['sentences']. *)
Theorem query_falls_back_to_text (text pattern : string) (filter unique : bool)
    (sent_index : option Z) (w : World) (self : CoreNLPClient) (m : Machine)
    (r : Response) :
  net w (sent m) = Answered r ->
  json_loads (requests.text r) = None ->
  let m' := after_call (GET (endpoint (base self) ++ "/semgrex")
                            (regex_params pattern filter unique) (Some text)) m in
  semgrex text pattern filter unique false sent_index w self m =
    Some (Ok (Unflattened (RawText (requests.text r))), self, m') /\
  semgrex text pattern filter unique true sent_index w self m =
    Some (Raise TypeError, self, m').
Proof.
  intros Hnet Hjson m'. unfold semgrex, bind.
  rewrite !__regex_eq, Hnet, Hjson. auto.
Qed.

(** X19: no run of [annotate] or [update] changes the configuration of
    the client: its start and stop commands, its endpoint, its default
    annotators and the reference to its default properties. *)
Theorem calls_keep_configuration (fuel : nat) (text : string) (doc : Document)
    (annotators : option (list string)) (properties : option dict) (w : World)
    (self : CoreNLPClient) (m : Machine) (r : result Document)
    (self' : CoreNLPClient) (m' : Machine) :
  annotate fuel text annotators properties w self m = Some (r, self', m') \/
  update fuel doc annotators properties w self m = Some (r, self', m') ->
  same_config self' self.
Proof.
  assert (Hreq : forall buf p m0 r0 self0 m1,
            _request fuel buf p w self m0 = Some (r0, self0, m1) ->
            same_config self0 self).
  { intros buf p m0 r0 self0 m1. rewrite _request_eq. unfold super.
    destruct (ensure_alive fuel w (base self) m0) as [[[res base1] m2] |] eqn:Hgate;
      [| discriminate].
    apply ensure_alive_shape in Hgate.
    destruct Hgate as (_ & _ & _ & _ & _ & Hsc & Hst & He & _).
    assert (Hsame : same_config
                      (mkClient base1 (default_annotators self)
                                (default_properties self)) self).
    { unfold same_config. cbn. auto. }
    destruct res as [v | e];
      [destruct (content_type_for p); [destruct (net w (sent m2)) |] |];
      intros Hrun; inversion Hrun; subst; exact Hsame. }
  intros [Hrun | Hrun]; destruct properties as [p |];
    [rewrite annotate_explicit_eq in Hrun | rewrite annotate_eq in Hrun
    | rewrite update_explicit_eq in Hrun | rewrite update_eq in Hrun];
    cbn zeta in Hrun;
    destruct (_request _ _ _ _ _ _) as [[[[r0 | e] self0] m0] |] eqn:Hcall;
    try discriminate; apply Hreq in Hcall; inversion Hrun; subst; exact Hcall.
Qed.

End Straight.

Lemma queries_fail_fast_witness :
  tokensregex "Alice ran." "{pos:NNP}" false true None down client boot =
    Some (Raise ConnectionError, client,
          after_call (GET "http://localhost:9000/semgrex"
                          (regex_params "{pos:NNP}" false false)
                          (Some "Alice ran.")) boot).
Proof.
  refine (proj1 (queries_fail_fast "Alice ran." "{pos:NNP}" false false true
                   None down client boot _)).
  reflexivity.
Defined.

Lemma query_falls_back_to_text_witness :
  semgrex "Alice ran." "{pos:NNP}" false false true None healthy client boot =
    Some (Raise TypeError, client,
          after_call (GET "http://localhost:9000/semgrex"
                          (regex_params "{pos:NNP}" false false)
                          (Some "Alice ran.")) boot).
Proof.
  refine (proj2 (query_falls_back_to_text "Alice ran." "{pos:NNP}" false false
                   None healthy client boot (mkResponse 200 "pong" "pong") _ _));
    reflexivity.
Defined.

Lemma calls_keep_configuration_witness :
  exists r self' m',
    update 1 "<doc>" None None healthy (mkClient managed [] 0%nat) boot =
      Some (r, self', m') /\
    same_config self' (mkClient managed [] 0%nat).
Proof.
  assert (Hrun : { x | update 1 "<doc>" None None healthy
                         (mkClient managed [] 0%nat) boot = Some x }).
  { eexists. vm_compute. reflexivity. }
  destruct Hrun as [[[r self'] m'] Hrun].
  exists r, self', m'. split; [exact Hrun |].
  apply (calls_keep_configuration 1 "" "<doc>" None None healthy
           (mkClient managed [] 0%nat) boot r self' m').
  right. exact Hrun.
Defined.

(** ** Construction *)

Lemma split_colon_length (s : string) : length (split_colon s) = S (colons s).
Proof.
  induction s as [| c s IH]; cbn; [reflexivity |].
  destruct (Ascii.eqb c ":"%char); cbn; [rewrite IH; reflexivity |].
  destruct (split_colon s); cbn in *; [discriminate | exact IH].
Qed.

(** Joining the parts with colons gives the string back. *)
Lemma join_split_colon (s : string) : join ":" (split_colon s) = s.
Proof.
  induction s as [| c s IH]; cbn [split_colon]; [reflexivity |].
  pose proof (split_colon_length s) as Hlen.
  destruct (Ascii.eqb_spec c ":"%char) as [-> | Hc].
  - destruct (split_colon s) as [| head rest]; [discriminate |].
    cbn [join]. cbn [join] in IH. rewrite IH. reflexivity.
  - destruct (split_colon s) as [| head rest]; [discriminate |].
    destruct rest as [| next rest]; cbn [join] in *; rewrite <- IH; reflexivity.
Qed.

(** No part has a colon left. *)
Lemma split_colon_parts (s : string) :
  Forall (fun part => colons part = 0%nat) (split_colon s).
Proof.
  induction s as [| c s IH]; cbn [split_colon].
  - constructor; [reflexivity | constructor].
  - destruct (Ascii.eqb c ":"%char) eqn:Hc.
    + constructor; [reflexivity | exact IH].
    + destruct (split_colon s) as [| head rest].
      * constructor; [cbn; rewrite Hc; reflexivity | constructor].
      * inversion IH; subst. constructor; [cbn; rewrite Hc; assumption | assumption].
Qed.

Section Construction.

Context `{Platform}.

(** X20: a client that was built to start its own server: the endpoint's
    netloc is [localhost:port], [JAVANLP_HOME] is set, the start command is
    the split command line for that port and time-out, and the client has
    no stop command, no child and is not active; it keeps the reference to
    the properties it was given, not a copy. *)
Theorem built_to_start_server (endpoint : string) (timeout : Z)
    (annotators : list string) (properties : loc) (quiet : bool)
    (c : CoreNLPClient) :
  CoreNLPClient__init__ true endpoint timeout annotators properties quiet
    = Built c ->
  exists port javanlp,
    netloc endpoint = "localhost:" ++ port /\
    colons port = 0%nat /\
    JAVANLP_HOME = Some javanlp /\
    c = mkClient
          (mkService (Some (shlex_split
                              (server_command javanlp port timeout quiet)))
                     None endpoint None false)
          annotators properties.
Proof.
  unfold CoreNLPClient__init__.
  pose proof (join_split_colon (netloc endpoint)) as Hjoin.
  pose proof (split_colon_parts (netloc endpoint)) as Hparts.
  destruct (split_colon (netloc endpoint)) as [| host [| port [| extra rest]]];
    try discriminate.
  destruct (String.eqb_spec host "localhost") as [-> | Hhost]; [| discriminate].
  cbn [negb]. destruct JAVANLP_HOME as [javanlp |]; [| discriminate].
  intros Hbuilt. exists port, javanlp. cbn [join] in Hjoin.
  split; [symmetry; exact Hjoin |]. split; [| split; [reflexivity |]].
  - inversion Hparts as [| ? ? _ Hrest]; subst.
    inversion Hrest; subst. assumption.
  - inversion Hbuilt. unfold RobustService__init__, and_split, server_command.
    destruct javanlp; reflexivity.
Qed.

(** X21: asked to start a server for an endpoint whose netloc has no
    colon, or more than one, the constructor fails unpacking
    [host, port], before it looks at the host or at [JAVANLP_HOME]. *)
Theorem endpoint_without_port_is_rejected (endpoint : string) (timeout : Z)
    (annotators : list string) (properties : loc) (quiet : bool) :
  colons (netloc endpoint) <> 1%nat ->
  CoreNLPClient__init__ true endpoint timeout annotators properties quiet
    = Failed UnpackError.
Proof.
  intros Hcolons. unfold CoreNLPClient__init__.
  pose proof (split_colon_length (netloc endpoint)) as Hlen.
  destruct (split_colon (netloc endpoint)) as [| host [| port [| extra rest]]];
    try reflexivity.
  cbn in Hlen. lia.
Qed.

(** X22: a client that was built has no stop command, whatever the
    arguments; so [stop], on that client in any later state of the same
    configuration, never raises and leaves the client not active. *)
Theorem built_client_stops_quietly (start_server : bool) (endpoint : string)
    (timeout : Z) (annotators : list string) (properties : loc) (quiet : bool)
    (c self : CoreNLPClient) (w : World) (m : Machine) :
  CoreNLPClient__init__ start_server endpoint timeout annotators properties quiet
    = Built c ->
  same_config self c ->
  exists self' m',
    super stop w self m = Some (Ok tt, self', m') /\
    is_active (base self') = false /\
    ran m' = ran m.
Proof.
  intros Hbuilt (_ & Hstop & _).
  assert (Hnone : stop_cmd (base c) = None).
  { unfold CoreNLPClient__init__ in Hbuilt. destruct start_server.
    - destruct (split_colon (netloc endpoint)) as [| host [| port [| extra rest]]];
        try discriminate.
      destruct (negb (String.eqb host "localhost")); [discriminate |].
      destruct JAVANLP_HOME; [| discriminate].
      inversion Hbuilt. reflexivity.
    - inversion Hbuilt. reflexivity. }
  unfold super. rewrite stop_eq, Hstop, Hnone. cbn.
  eexists _, _. split; [reflexivity |]. split; [reflexivity |].
  destruct (server (base self)); reflexivity.
Qed.

(** X23: a client built with [start_server = False] never starts a
    process: [ensure_alive], in any later state of the same configuration,
    only probes and sleeps. *)
Theorem client_without_server_never_spawns (endpoint : string) (timeout : Z)
    (annotators : list string) (properties : loc) (quiet : bool)
    (c self : CoreNLPClient) (fuel : nat) (w : World) (m : Machine)
    (r : result (option bool)) (self' : RobustService) (m' : Machine) :
  CoreNLPClient__init__ false endpoint timeout annotators properties quiet
    = Built c ->
  same_config self c ->
  ensure_alive fuel w (base self) m = Some (r, self', m') ->
  exists polls,
    trace m' = (trace m ++ polls)%list /\
    Forall (fun e => e = ping (base self) \/ e = Sleep 1) polls /\
    spawned m' = spawned m.
Proof.
  intros Hbuilt (Hstart & _) Hrun.
  assert (Hnone : start_cmd (base self) = None).
  { rewrite Hstart. unfold CoreNLPClient__init__ in Hbuilt.
    inversion Hbuilt. reflexivity. }
  assert (Hquiet : spawn_events (base self) = []).
  { unfold spawn_events, spawn_argv. rewrite Hnone.
    destruct (server (base self)); reflexivity. }
  assert (Hspawned : spawned m' = spawned m).
  { revert Hrun. rewrite ensure_alive_eq.
    assert (Hrec : forall m0, recover fuel w (base self) m0 = Some (r, self', m') ->
                              spawned m' = spawned m0).
    { intros m0. rewrite recover_after_spawn. unfold after_spawn, spawn_argv.
      rewrite Hnone. replace (match server (base self) with
                              | Some _ => None
                              | None => configured None
                              end) with (@None (list string))
        by (destruct (server (base self)); reflexivity).
      destruct (wait_loop _ _ _ _ _) as [[[[u | e] s2] m2] |] eqn:Hloop;
        [| | discriminate]; intros Hres; inversion Hres; subst;
        apply wait_loop_shape in Hloop;
        destruct Hloop as (k & _ & _ & _ & _ & Hsp & _); exact Hsp. }
    destruct (is_active (base self)); [| apply Hrec].
    destruct (probe (net w (sent m))) as [b | []];
      try (intros Hres; inversion Hres; reflexivity).
    intros Hres. apply Hrec in Hres. exact Hres. }
  apply ensure_alive_shape in Hrun.
  destruct Hrun as (polls & Hpolls & Htrace & _).
  destruct Htrace as [Ht | Ht].
  - exists polls. auto.
  - rewrite Hquiet in Ht. cbn [app] in Ht.
    exists ((if is_active (base self) then [ping (base self)] else []) ++ polls)%list.
    split; [exact Ht |]. split; [| exact Hspawned].
    apply Forall_app. split; [| exact Hpolls].
    destruct (is_active (base self)); [| constructor].
    constructor; [left; reflexivity | constructor].
Qed.

End Construction.

Lemma built_to_start_server_witness :
  exists port javanlp,
    netloc "http://localhost:9000" = "localhost:" ++ port /\
    colons port = 0%nat /\
    JAVANLP_HOME = Some javanlp /\
    mkClient
      (mkService
         (Some ["/opt/javanlp/javanlp.sh edu.stanford.nlp.pipeline.StanfordCoreNLPServer -port 9000 -timeout 5000 2&>1 >/dev/null"])
         None "http://localhost:9000" None false)
      ["tokenize"] 0%nat =
    mkClient
      (mkService (Some (shlex_split (server_command javanlp port 5000 true)))
                 None "http://localhost:9000" None false)
      ["tokenize"] 0%nat.
Proof.
  apply (built_to_start_server "http://localhost:9000" 5000 ["tokenize"] 0%nat true).
  reflexivity.
Defined.

Lemma endpoint_without_port_is_rejected_witness :
  CoreNLPClient__init__ true "http://localhost" 5000 ["tokenize"] 0%nat true
    = Failed UnpackError.
Proof.
  apply (endpoint_without_port_is_rejected "http://localhost" 5000 ["tokenize"]
           0%nat true).
  discriminate.
Defined.

Lemma built_client_stops_quietly_witness :
  exists self' m',
    super stop failing_commands (started own_server) boot =
      Some (Ok tt, self', m') /\
    is_active (base self') = false /\
    ran m' = ran boot.
Proof.
  apply (built_client_stops_quietly true localhost 5000 ["tokenize"] 0%nat true
           own_server).
  - reflexivity.
  - unfold same_config. cbn. auto.
Defined.

Lemma client_without_server_never_spawns_witness :
  exists r self' m' polls,
    ensure_alive 20 down (base (started (mkClient passive ["tokenize"] 0%nat))) boot
      = Some (r, self', m') /\
    trace m' = (trace boot ++ polls)%list /\
    Forall (fun e => e = ping (base (started (mkClient passive ["tokenize"] 0%nat)))
                     \/ e = Sleep 1) polls /\
    spawned m' = spawned boot.
Proof.
  assert (Hrun : { x | ensure_alive 20 down
                         (base (started (mkClient passive ["tokenize"] 0%nat))) boot
                       = Some x }).
  { eexists. vm_compute. reflexivity. }
  destruct Hrun as [[[r self'] m'] Hrun].
  destruct (client_without_server_never_spawns localhost 5000 ["tokenize"] 0%nat
              true (mkClient passive ["tokenize"] 0%nat)
              (started (mkClient passive ["tokenize"] 0%nat)) 20 down boot
              r self' m' eq_refl
              (conj eq_refl (conj eq_refl (conj eq_refl (conj eq_refl eq_refl))))
              Hrun)
    as (polls & Htrace & Hpolls & Hspawned).
  exists r, self', m', polls. split; [exact Hrun |]. split_and!; assumption.
Defined.
